(** * Drata Kong Tests: a shallow embedding of the evidence pipeline

    Source: src/src/tests/base.py, src/src/tests/runtime.py,
    src/src/tests/configuration.py, src/src/clients/kong.py,
    src/src/clients/drata.py, src/src/main.py.

    Python values that flow through the checks (response bodies, details
    dictionaries, artifacts) are modelled as JSON trees; raised exceptions
    are modelled by a small result monad [PyResult]; collaborators
    (data-plane, admin API, clock) are inputs of the functions. *)

From Stdlib Require Import String Ascii List ZArith QArith Bool Lia.
Import ListNotations.
Open Scope string_scope.
#[local] Set Warnings "-register-all".

(* ------------------------------------------------------------------ *)
(** ** JSON values and Python dictionary access *)

Inductive json : Type :=
| JNull
| JBool (b : bool)
| JInt (z : Z)
| JNum (q : Q)          (** a Python float *)
| JStr (s : string)
| JList (l : list json)
| JObj (kvs : list (string * json)).

(** [dict[k]] lookup as Python builds a dict from an association list:
    a later binding of the same key overrides an earlier one. *)
Definition dict_lookup (kvs : list (string * json)) (k : string) : option json :=
  fold_left (fun acc kv => if String.eqb (fst kv) k then Some (snd kv) else acc)
            kvs None.

(** Python truthiness of a JSON value ([if x:]). *)
Definition truthy (j : json) : bool :=
  match j with
  | JNull => false
  | JBool b => b
  | JInt z => negb (Z.eqb z 0)
  | JNum q => negb (Qeq_bool q 0)
  | JStr s => negb (String.eqb s "")
  | JList l => match l with [] => false | _ => true end
  | JObj kvs => match kvs with [] => false | _ => true end
  end.

(* ------------------------------------------------------------------ *)
(** ** Raised exceptions *)

(** Python exceptions: those deriving from [Exception] (caught by
    [except Exception]) and the other [BaseException]s (KeyboardInterrupt,
    SystemExit, ...), which [except Exception] lets through. *)
Inductive exc_class : Type := ExcException | ExcBaseOnly.

Record PyExc : Type := mkExc { exc_cls : exc_class; exc_str : string }.

Definition is_exception (e : PyExc) : bool :=
  match exc_cls e with ExcException => true | ExcBaseOnly => false end.

Inductive PyResult (A : Type) : Type :=
| POk (a : A)
| PRaise (e : PyExc).
Arguments POk {A} a.
Arguments PRaise {A} e.

Definition pybind {A B} (m : PyResult A) (k : A -> PyResult B) : PyResult B :=
  match m with POk a => k a | PRaise e => PRaise e end.

Notation "'let*' x ':=' m 'in' k" := (pybind m (fun x => k))
  (at level 200, x name, m at level 100, k at level 200).

Definition attribute_error : PyExc := mkExc ExcException "AttributeError: object has no attribute 'get'".
Definition key_error (k : string) : PyExc := mkExc ExcException ("KeyError: " ++ k).
Definition type_error (what : string) : PyExc := mkExc ExcException ("TypeError: " ++ what).

(** [d.get(k, default)]: only a dict has [get]. *)
Definition py_get (d : json) (k : string) (dflt : json) : PyResult json :=
  match d with
  | JObj kvs => POk (match dict_lookup kvs k with Some v => v | None => dflt end)
  | _ => PRaise attribute_error
  end.

(** [d[k]]. *)
Definition py_index (d : json) (k : string) : PyResult json :=
  match d with
  | JObj kvs => match dict_lookup kvs k with Some v => POk v | None => PRaise (key_error k) end
  | _ => PRaise (type_error "object is not subscriptable")
  end.

(** [for item in x]: a list yields its items, a dict its keys, a string
    its one-character strings; anything else is not iterable. *)
Definition py_iter (x : json) : PyResult (list json) :=
  match x with
  | JList l => POk l
  | JObj kvs => POk (map (fun kv => JStr (fst kv)) kvs)
  | JStr s => POk (map (fun c => JStr (String c EmptyString)) (list_ascii_of_string s))
  | _ => PRaise (type_error "object is not iterable")
  end.

Fixpoint py_mapM {A B} (f : A -> PyResult B) (l : list A) : PyResult (list B) :=
  match l with
  | [] => POk []
  | x :: xs => let* y := f x in let* ys := py_mapM f xs in POk (y :: ys)
  end.

(* ------------------------------------------------------------------ *)
(** ** Evidence model (tests/base.py) *)

Inductive TestResult : Type := PASS | FAIL | ERROR | SKIP.

(** [TestResult.value] *)
Definition value (r : TestResult) : string :=
  match r with PASS => "PASS" | FAIL => "FAIL" | ERROR => "ERROR" | SKIP => "SKIP" end.

Record EvidenceArtifact : Type :=
  mkArtifact { art_type : string; art_description : string; art_data : json }.

(** [asdict(a)] *)
Definition asdict_artifact (a : EvidenceArtifact) : json :=
  JObj [("type", JStr (art_type a)); ("description", JStr (art_description a));
        ("data", art_data a)].

Record Evidence : Type := mkEvidence {
  test_id : string;
  test_name : string;
  timestamp : string;
  result : string;
  control_mapping : list string;
  duration_ms : Z;
  details : json;
  artifacts : list json;
  error_message : option string }.

(** What [execute] produced: [(result, details, artifacts)], or the
    exception it raised. *)
Definition ExecOutcome : Type := PyResult (TestResult * json * list EvidenceArtifact).

(** A concrete [BaseTest]: its three properties and the behaviour of its
    [execute] against the collaborators of this run. *)
Record BaseTest : Type := mkTest {
  bt_test_id : string;
  bt_test_name : string;
  bt_control_mapping : list string;
  bt_execute : ExecOutcome }.

(** The two clock readings [run] takes: [datetime.now(...).isoformat()]
    and the [time.time()] readings before and after [execute]
    (wall-clock seconds; float rounding is not modelled). *)
Record Clock : Type := mkClock { now_iso : string; start_time : Q; end_time : Q }.

(** Python [int(x)] on a number: truncation towards zero. *)
Definition py_int (x : Q) : Z := Z.quot (Qnum x) (Zpos (Qden x)).

Definition elapsed_ms (c : Clock) : Z := py_int ((end_time c - start_time c) * 1000).

(** [BaseTest.run] *)
Definition run (t : BaseTest) (c : Clock) : PyResult Evidence :=
  match bt_execute t with
  | POk (r, d, arts) =>
      POk (mkEvidence (bt_test_id t) (bt_test_name t) (now_iso c) (value r)
                      (bt_control_mapping t) (elapsed_ms c) d
                      (map asdict_artifact arts) None)
  | PRaise e =>
      if is_exception e then
        POk (mkEvidence (bt_test_id t) (bt_test_name t) (now_iso c) (value ERROR)
                        (bt_control_mapping t) (elapsed_ms c) (JObj []) []
                        (Some (exc_str e)))
      else PRaise e
  end.

(* ------------------------------------------------------------------ *)
(** ** Data-plane client (clients/kong.py, [DataplaneClient]) *)

(** A [requests.Response]: status code, headers and body; [body] is
    [None] when [response.json()] fails to parse it. *)
Record Response : Type :=
  mkResponse { status_code : Z; resp_headers : list (string * string); body : option json }.

(** The gateway seen from the client: the outcome of the [i]-th request a
    check sends, for a path and the [X-API-Key] header sent (if any).
    Transport failures (timeouts, refused connections) are raised
    exceptions. *)
Definition Dataplane : Type := nat -> string -> option string -> PyResult Response.

(** [DataplaneClient.request]: the key header is only set when [api_key]
    is truthy. *)
Definition api_key_header (api_key : option string) : option string :=
  match api_key with
  | Some k => if String.eqb k "" then None else Some k
  | None => None
  end.

(** [DataplaneClient.get] *)
Definition dp_get (dp : Dataplane) (i : nat) (path : string) (api_key : option string)
  : PyResult Response :=
  dp i path (api_key_header api_key).

(** [try: json_data = response.json() except: json_data = {}] *)
Definition json_or_empty (r : Response) : json :=
  match body r with Some j => j | None => JObj [] end.

(** [DataplaneClient.health_check] *)
Definition health_check (dp : Dataplane) (i : nat) (api_key : string)
  : PyResult (bool * Z * json) :=
  match dp_get dp i "/api/health" (Some api_key) with
  | POk r => POk (Z.eqb (status_code r) 200, status_code r, json_or_empty r)
  | PRaise e =>
      if is_exception e then POk (false, 0%Z, JObj [("error", JStr (exc_str e))])
      else PRaise e
  end.

(** [DataplaneClient.test_rate_limit]: one request per index, a request
    that raises is recorded as status 0. *)
Definition test_rate_limit (dp : Dataplane) (api_key : string) (path : string)
  (num_requests : nat) : PyResult (list Z) :=
  py_mapM (fun i =>
             match dp_get dp i path (Some api_key) with
             | POk r => POk (status_code r)
             | PRaise e => if is_exception e then POk 0%Z else PRaise e
             end) (seq 0 num_requests).

(** [DataplaneClient.get_whoami] *)
Definition get_whoami (dp : Dataplane) (i : nat) (api_key : string) : PyResult (Z * json) :=
  match dp_get dp i "/api/whoami" (Some api_key) with
  | POk r => POk (status_code r, json_or_empty r)
  | PRaise e =>
      if is_exception e then POk (0%Z, JObj [("error", JStr (exc_str e))])
      else PRaise e
  end.

(* ------------------------------------------------------------------ *)
(** ** Runtime checks (tests/runtime.py) *)

Definition count_eq (z : Z) (l : list Z) : Z :=
  Z.of_nat (length (filter (fun r => Z.eqb r z) l)).

(** [[{"request": i+1, "status": r} for i, r in enumerate(results)]] *)
Definition enumerate_results (results : list Z) : json :=
  JList (map (fun ir => JObj [("request", JInt (Z.of_nat (fst ir) + 1)); ("status", JInt (snd ir))])
             (combine (seq 0 (length results)) results)).

Definition pass_or_fail (passed : bool) : TestResult := if passed then PASS else FAIL.

(** [RT001_RateLimitFreeTier.execute] *)
Definition RT001_execute (dp : Dataplane) (api_key : string) : ExecOutcome :=
  let num_requests := 8%nat in
  let expected_limit := 5%Z in
  let* results := test_rate_limit dp api_key "/api/hello" num_requests in
  let success_count := count_eq 200 results in
  let rate_limited_count := count_eq 429 results in
  let passed := (0 <? rate_limited_count)%Z && (success_count <=? expected_limit)%Z in
  let details := JObj [
    ("api_key", JStr api_key); ("tier", JStr "free_trial");
    ("expected_limit", JInt expected_limit);
    ("requests_sent", JInt (Z.of_nat num_requests));
    ("success_count", JInt success_count);
    ("rate_limited_count", JInt rate_limited_count);
    ("results", enumerate_results results);
    ("rate_limit_triggered", JBool (0 <? rate_limited_count)%Z)] in
  let artifacts := [mkArtifact "test_results" "HTTP status codes for rate limit test"
                               (JList (map JInt results))] in
  POk (pass_or_fail passed, details, artifacts).

(** [RT002_RateLimitProTier.execute] *)
Definition RT002_execute (dp : Dataplane) (api_key : string) : ExecOutcome :=
  let num_requests := 10%nat in
  let* results := test_rate_limit dp api_key "/api/hello" num_requests in
  let success_count := count_eq 200 results in
  let rate_limited_count := count_eq 429 results in
  let passed := Z.eqb success_count (Z.of_nat num_requests) in
  let details := JObj [
    ("api_key", JStr api_key); ("tier", JStr "pro");
    ("expected_limit", JInt 60);
    ("requests_sent", JInt (Z.of_nat num_requests));
    ("success_count", JInt success_count);
    ("rate_limited_count", JInt rate_limited_count);
    ("results", enumerate_results results);
    ("all_passed", JBool passed)] in
  let artifacts := [mkArtifact "test_results" "HTTP status codes for pro tier test"
                               (JList (map JInt results))] in
  POk (pass_or_fail passed, details, artifacts).

Definition headers_json (h : list (string * string)) : json :=
  JObj (map (fun kv => (fst kv, JStr (snd kv))) h).

(** The shared body of [RT003_InvalidKeyRejected.execute] and
    [RT004_MissingKeyRejected.execute]. *)
Definition key_rejected_execute (dp : Dataplane) (api_key : option string)
  (description : string) : ExecOutcome :=
  let* response := dp_get dp 0 "/api/hello" api_key in
  let passed := Z.eqb (status_code response) 401 in
  let details := JObj [
    ("api_key_used", match api_key with Some k => JStr k | None => JNull end);
    ("expected_status", JInt 401);
    ("actual_status", JInt (status_code response));
    ("rejected", JBool passed)] in
  let artifacts := [mkArtifact "http_response" description
                      (JObj [("status_code", JInt (status_code response));
                             ("headers", headers_json (resp_headers response))])] in
  POk (pass_or_fail passed, details, artifacts).

(** [RT003_InvalidKeyRejected.execute] *)
Definition RT003_execute (dp : Dataplane) : ExecOutcome :=
  key_rejected_execute dp (Some "invalid-key-12345") "Response from invalid key request".

(** [RT004_MissingKeyRejected.execute] *)
Definition RT004_execute (dp : Dataplane) : ExecOutcome :=
  key_rejected_execute dp None "Response from request without API key".

(** [RT005_ValidKeyAccepted.execute] *)
Definition RT005_execute (dp : Dataplane) (api_key : string) : ExecOutcome :=
  let* hc := health_check dp 0 api_key in
  let '(is_healthy, status, response_data) := hc in
  let passed := Z.eqb status 200 in
  let details := JObj [
    ("api_key_used", JStr api_key); ("expected_status", JInt 200);
    ("actual_status", JInt status); ("accepted", JBool passed);
    ("health_response", response_data)] in
  let artifacts := [mkArtifact "http_response" "Health check response with valid key"
                               response_data] in
  POk (pass_or_fail passed, details, artifacts).

(** [actual_custom_id == self.expected_custom_id]: a JSON value equals a
    Python [str] only when it is that string. *)
Definition eq_str (j : json) (s : string) : bool :=
  match j with JStr s' => String.eqb s' s | _ => false end.

(** [RT006_ConsumerIdentityInjected.execute] *)
Definition RT006_execute (dp : Dataplane) (api_key expected_custom_id : string) : ExecOutcome :=
  let* w := get_whoami dp 0 api_key in
  let '(status, response_data) := w in
  let* consumer_info := py_get response_data "consumer" (JObj []) in
  let* actual_custom_id := py_get consumer_info "custom_id" (JStr "") in
  let passed := Z.eqb status 200 && eq_str actual_custom_id expected_custom_id in
  let details := JObj [
    ("api_key_used", JStr api_key);
    ("expected_custom_id", JStr expected_custom_id);
    ("actual_custom_id", actual_custom_id);
    ("consumer_info", consumer_info);
    ("identity_correct", JBool passed)] in
  let artifacts := [mkArtifact "http_response" "Whoami response showing consumer identity"
                               response_data] in
  POk (pass_or_fail passed, details, artifacts).

(* ------------------------------------------------------------------ *)
(** ** Admin client (clients/kong.py, [KonnectClient]) *)

(** The Konnect admin API seen from the client: for a core-entity path
    ("/consumers", "/plugins") the parsed JSON body of the response, or
    the exception raised on the way (control-plane lookup, transport,
    [raise_for_status] on a non-2xx status, a body that is not JSON). *)
Definition Admin : Type := string -> PyResult json.

(** [KongConsumer]; Python does not enforce the annotated field types,
    so every field holds whatever the API returned. *)
Record KongConsumer : Type :=
  mkConsumer { c_id : json; c_username : json; c_custom_id : json; c_created_at : json }.

(** [KongPlugin] *)
Record KongPlugin : Type := mkPlugin {
  p_id : json; p_name : json; p_enabled : json; p_config : json;
  p_consumer_id : json; p_service_id : json; p_route_id : json }.

(** [item.get(k, {}).get("id") if item.get(k) else None] *)
Definition nested_id (item : json) (k : string) : PyResult json :=
  let* v := py_get item k JNull in
  if truthy v then
    let* o := py_get item k (JObj []) in py_get o "id" JNull
  else POk JNull.

(** The loop body of [KonnectClient.get_consumers]. *)
Definition parse_consumer (item : json) : PyResult KongConsumer :=
  let* id := py_index item "id" in
  let* username := py_get item "username" (JStr "") in
  let* custom_id := py_get item "custom_id" JNull in
  let* created_at := py_get item "created_at" (JInt 0) in
  POk (mkConsumer id username custom_id created_at).

(** [KonnectClient.get_consumers] *)
Definition get_consumers (admin : Admin) : PyResult (list KongConsumer) :=
  let* resp := admin "/consumers" in
  let* data := py_get resp "data" (JList []) in
  let* items := py_iter data in
  py_mapM parse_consumer items.

(** The [KongPlugin(...)] construction in [KonnectClient.get_plugins]. *)
Definition parse_plugin (item : json) : PyResult KongPlugin :=
  let* id := py_index item "id" in
  let* name := py_index item "name" in
  let* enabled := py_get item "enabled" (JBool true) in
  let* config := py_get item "config" (JObj []) in
  let* consumer_id := nested_id item "consumer" in
  let* service_id := nested_id item "service" in
  let* route_id := nested_id item "route" in
  POk (mkPlugin id name enabled config consumer_id service_id route_id).

(** The loop of [KonnectClient.get_plugins]: an item whose name differs
    from a (truthy) [plugin_name] is skipped. *)
Fixpoint collect_plugins (plugin_name : option string) (items : list json)
  : PyResult (list KongPlugin) :=
  match items with
  | [] => POk []
  | item :: rest =>
      let* skip :=
        match plugin_name with
        | Some n =>
            if String.eqb n "" then POk false
            else let* nm := py_get item "name" JNull in POk (negb (eq_str nm n))
        | None => POk false
        end in
      if skip then collect_plugins plugin_name rest
      else let* p := parse_plugin item in
           let* ps := collect_plugins plugin_name rest in
           POk (p :: ps)
  end.

(** [KonnectClient.get_plugins] *)
Definition get_plugins (admin : Admin) (plugin_name : option string)
  : PyResult (list KongPlugin) :=
  let* resp := admin "/plugins" in
  let* data := py_get resp "data" (JList []) in
  let* items := py_iter data in
  collect_plugins plugin_name items.

(* ------------------------------------------------------------------ *)
(** ** Configuration checks (tests/configuration.py) *)

Definition jlen {A} (l : list A) : json := JInt (Z.of_nat (length l)).

(** [CF001_AuthPluginEnabled.execute] *)
Definition CF001_execute (admin : Admin) : ExecOutcome :=
  let* plugins := get_plugins admin (Some "key-auth") in
  let enabled_plugins := filter (fun p => truthy (p_enabled p)) plugins in
  let passed := negb (Nat.eqb (length enabled_plugins) 0) in
  let plugin_configs := JList (map (fun p => JObj [
      ("id", p_id p); ("enabled", p_enabled p);
      ("service_id", p_service_id p); ("route_id", p_route_id p)]) plugins) in
  let details := JObj [
    ("plugin_name", JStr "key-auth"); ("total_found", jlen plugins);
    ("enabled_count", jlen enabled_plugins);
    ("plugin_configs", plugin_configs); ("auth_enforced", JBool passed)] in
  let artifacts := [mkArtifact "config_snapshot" "Key-auth plugin configuration" plugin_configs] in
  POk (pass_or_fail passed, details, artifacts).

(** One entry of [plugin_configs] in [CF002_RateLimitPluginEnabled.execute]. *)
Definition CF002_plugin_config (p : KongPlugin) : PyResult json :=
  let* minute := py_get (p_config p) "minute" JNull in
  let* hour := py_get (p_config p) "hour" JNull in
  let* policy := py_get (p_config p) "policy" JNull in
  POk (JObj [("id", p_id p); ("enabled", p_enabled p); ("consumer_id", p_consumer_id p);
             ("config", JObj [("minute", minute); ("hour", hour); ("policy", policy)])]).

(** [p.consumer_id and p.enabled] *)
Definition consumer_scoped (p : KongPlugin) : bool :=
  truthy (p_consumer_id p) && truthy (p_enabled p).

(** [CF002_RateLimitPluginEnabled.execute] *)
Definition CF002_execute (admin : Admin) : ExecOutcome :=
  let* plugins := get_plugins admin (Some "rate-limiting") in
  let consumer_plugins := filter consumer_scoped plugins in
  let passed := negb (Nat.eqb (length consumer_plugins) 0) in
  let* configs := py_mapM CF002_plugin_config plugins in
  let plugin_configs := JList configs in
  let details := JObj [
    ("plugin_name", JStr "rate-limiting"); ("total_found", jlen plugins);
    ("consumer_scoped_count", jlen consumer_plugins);
    ("plugin_configs", plugin_configs); ("rate_limiting_configured", JBool passed)] in
  let artifacts := [mkArtifact "config_snapshot" "Rate limiting plugin configuration" plugin_configs] in
  POk (pass_or_fail passed, details, artifacts).

(** Python [hash] succeeds on the scalar JSON values only. *)
Definition hashable (j : json) : bool :=
  match j with JList _ | JObj _ => false | _ => true end.

Definition py_num (j : json) : option Q :=
  match j with
  | JBool b => Some (if b then 1 else 0)
  | JInt z => Some (inject_Z z)
  | JNum q => Some q
  | _ => None
  end.

(** Python [==] on hashable JSON values ([True == 1 == 1.0]). *)
Definition py_eq (a b : json) : bool :=
  match a, b with
  | JNull, JNull => true
  | JStr x, JStr y => String.eqb x y
  | _, _ => match py_num a, py_num b with
            | Some x, Some y => Qeq_bool x y
            | _, _ => false
            end
  end.

Definition unhashable_error : PyExc := type_error "unhashable type".

(** [{p.consumer_id for p in rate_limit_plugins if p.consumer_id and p.enabled}],
    kept as the list of its elements. *)
Definition consumers_with_limits (plugins : list KongPlugin) : PyResult (list json) :=
  py_mapM (fun p => if hashable (p_consumer_id p) then POk (p_consumer_id p)
                    else PRaise unhashable_error)
          (filter consumer_scoped plugins).

(** [x in s] for a Python set [s]. *)
Definition py_in_set (x : json) (s : list json) : PyResult bool :=
  if hashable x then POk (existsb (py_eq x) s) else PRaise unhashable_error.

(** One pass of the loop over consumers in [CF003_AllConsumersHaveLimits.execute]:
    the [consumer_coverage] entry, whether the consumer is covered, and
    the username appended to [missing_limits] when it is not. *)
Definition coverage_entry (with_limits : list json) (c : KongConsumer)
  : PyResult (json * bool * json) :=
  let* has_limit := py_in_set (c_id c) with_limits in
  POk (JObj [("id", c_id c); ("username", c_username c); ("custom_id", c_custom_id c);
             ("has_rate_limit", JBool has_limit)], has_limit, c_username c).

(** [CF003_AllConsumersHaveLimits.execute] after the two admin calls,
    on the consumer list and the rate-limiting plugin list they returned.
    [coverage_percent] is kept exact: its float rounding
    [round(., 1)] is not modelled. *)
Definition CF003_execute_on (consumers : list KongConsumer) (rate_limit_plugins : list KongPlugin)
  : ExecOutcome :=
  let* with_limits := consumers_with_limits rate_limit_plugins in
  let* entries := py_mapM (coverage_entry with_limits) consumers in
  let consumer_coverage := map (fun e => fst (fst e)) entries in
  let missing_limits := map snd (filter (fun e => negb (snd (fst e))) entries) in
  let covered_consumers := length (filter (fun e => snd (fst e)) entries) in
  let total_consumers := length consumers in
  let coverage_percent :=
    if (0 <? total_consumers)%nat
    then JNum (inject_Z (Z.of_nat covered_consumers) / inject_Z (Z.of_nat total_consumers) * 100)
    else JInt 0 in
  let passed := Nat.eqb (length missing_limits) 0 && (0 <? total_consumers)%nat in
  let details := JObj [
    ("total_consumers", JInt (Z.of_nat total_consumers));
    ("consumers_with_limits", JInt (Z.of_nat covered_consumers));
    ("coverage_percent", coverage_percent);
    ("missing_limits", JList missing_limits);
    ("consumer_coverage", JList consumer_coverage);
    ("full_coverage", JBool passed)] in
  let artifacts := [mkArtifact "config_snapshot" "Consumer rate limit coverage" (JList consumer_coverage)] in
  POk (pass_or_fail passed, details, artifacts).

(** [CF003_AllConsumersHaveLimits.execute] *)
Definition CF003_execute (admin : Admin) : ExecOutcome :=
  let* consumers := get_consumers admin in
  let* rate_limit_plugins := get_plugins admin (Some "rate-limiting") in
  CF003_execute_on consumers rate_limit_plugins.

(* ------------------------------------------------------------------ *)
(** ** The suite (main.py, [create_tests]) *)

Definition RT001_RateLimitFreeTier (dp : Dataplane) (api_key : string) : BaseTest :=
  mkTest "RT-001" "Rate limiting enforces free tier (5 req/min)"
         ["CC6.1"; "CC6.3"; "CC7.2"] (RT001_execute dp api_key).
Definition RT002_RateLimitProTier (dp : Dataplane) (api_key : string) : BaseTest :=
  mkTest "RT-002" "Rate limiting enforces pro tier (60 req/min)"
         ["CC6.1"; "CC6.3"; "CC7.2"] (RT002_execute dp api_key).
Definition RT003_InvalidKeyRejected (dp : Dataplane) : BaseTest :=
  mkTest "RT-003" "Invalid API key rejected (401)" ["CC6.1"; "CC6.6"] (RT003_execute dp).
Definition RT004_MissingKeyRejected (dp : Dataplane) : BaseTest :=
  mkTest "RT-004" "Missing API key rejected (401)" ["CC6.1"; "CC6.6"] (RT004_execute dp).
Definition RT005_ValidKeyAccepted (dp : Dataplane) (api_key : string) : BaseTest :=
  mkTest "RT-005" "Valid API key accepted (200)" ["CC6.1"] (RT005_execute dp api_key).
Definition RT006_ConsumerIdentityInjected (dp : Dataplane) (api_key expected_custom_id : string)
  : BaseTest :=
  mkTest "RT-006" "Consumer identity injected correctly" ["CC6.1"; "CC6.3"]
         (RT006_execute dp api_key expected_custom_id).
Definition CF001_AuthPluginEnabled (admin : Admin) : BaseTest :=
  mkTest "CF-001" "Key authentication plugin enabled" ["CC6.1"; "CC8.1"] (CF001_execute admin).
Definition CF002_RateLimitPluginEnabled (admin : Admin) : BaseTest :=
  mkTest "CF-002" "Rate limiting plugin enabled per consumer" ["CC6.1"; "CC6.3"; "CC8.1"]
         (CF002_execute admin).
Definition CF003_AllConsumersHaveLimits (admin : Admin) : BaseTest :=
  mkTest "CF-003" "All consumers have rate limits configured" ["CC6.2"; "CC6.3"]
         (CF003_execute admin).

(** [create_tests]; [dps k] is the gateway as the [k]-th runtime check
    sees it (the checks share one [DataplaneClient]). *)
Definition create_tests (free_trial_key pro_key : string) (dps : nat -> Dataplane) (admin : Admin)
  : list BaseTest :=
  [ RT001_RateLimitFreeTier (dps 0%nat) free_trial_key;
    RT002_RateLimitProTier (dps 1%nat) pro_key;
    RT003_InvalidKeyRejected (dps 2%nat);
    RT004_MissingKeyRejected (dps 3%nat);
    RT005_ValidKeyAccepted (dps 4%nat) pro_key;
    RT006_ConsumerIdentityInjected (dps 5%nat) pro_key "tier_pro";
    CF001_AuthPluginEnabled admin;
    CF002_RateLimitPluginEnabled admin;
    CF003_AllConsumersHaveLimits admin ].

(* ------------------------------------------------------------------ *)
(** ** Orchestration (main.py) *)

(** [run_tests]: each test is run with the clock readings of its turn;
    the progress lines printed on the console are not modelled. *)
Definition run_tests (tests : list (BaseTest * Clock)) : PyResult (list Evidence) :=
  py_mapM (fun tc => run (fst tc) (snd tc)) tests.

Definition count_result (r : string) (results : list Evidence) : nat :=
  length (filter (fun e => String.eqb (result e) r) results).

(** The summary statistics of [print_summary]. *)
Record Summary : Type := mkSummary { total : nat; passed : nat; failed : nat; errors : nat }.

Definition summary_stats (results : list Evidence) : Summary :=
  mkSummary (length results) (count_result "PASS" results) (count_result "FAIL" results)
            (count_result "ERROR" results).

(** The SKIP count, the fourth outcome, which [print_summary] does not print. *)
Definition skipped (results : list Evidence) : nat := count_result "SKIP" results.

(** The exit decision at the end of [main]. *)
Definition exit_code (results : list Evidence) : Z :=
  let failed_count :=
    length (filter (fun r => String.eqb (result r) "FAIL" || String.eqb (result r) "ERROR") results) in
  if (0 <? failed_count)%nat then 1%Z else 0%Z.

(* ------------------------------------------------------------------ *)
(** ** Evidence sink (clients/drata.py, [push_to_drata]) *)

Record DrataEvidencePayload : Type := mkPayload {
  pl_test_id : string; pl_test_name : string; pl_result : string; pl_timestamp : string;
  pl_control_ids : list string; pl_details : json; pl_artifacts : list json }.

(** [DrataEvidencePayload.to_dict] *)
Definition to_dict (p : DrataEvidencePayload) : json :=
  JObj [("externalId", JStr (pl_test_id p)); ("name", JStr (pl_test_name p));
        ("status", JStr (if String.eqb (pl_result p) "PASS" then "PASSING" else "FAILING"));
        ("lastTestedAt", JStr (pl_timestamp p));
        ("controlIds", JList (map JStr (pl_control_ids p)));
        ("evidence", JObj [("details", pl_details p); ("artifacts", JList (pl_artifacts p))])].

(** The payload [push_to_drata] builds from an Evidence record. *)
Definition payload_of (e : Evidence) : DrataEvidencePayload :=
  mkPayload (test_id e) (test_name e) (result e) (timestamp e) (control_mapping e)
            (details e) (artifacts e).

(** [str.lower] on the ASCII letters. *)
Definition lower_ascii (c : ascii) : ascii :=
  let n := nat_of_ascii c in
  if (65 <=? n)%nat && (n <=? 90)%nat then ascii_of_nat (n + 32) else c.

Fixpoint lower (s : string) : string :=
  match s with
  | EmptyString => EmptyString
  | String c s' => String (lower_ascii c) (lower s')
  end.

(** [f"kong-{evidence.test_id.lower()}"] *)
Definition monitor_id_of (e : Evidence) : string := "kong-" ++ lower (test_id e).

(** Decimal rendering of a natural number (for [f"mock-{n}"]). *)
Fixpoint decimal_aux (fuel n : nat) (acc : string) : string :=
  match fuel with
  | O => acc
  | S f =>
      let acc' := String (ascii_of_nat (48 + n mod 10)) acc in
      if (n <? 10)%nat then acc' else decimal_aux f (n / 10) acc'
  end.
Definition decimal (n : nat) : string := decimal_aux (S n) n "".

(** The two sink clients: [DrataClient] ([sent] records the POSTs made
    over the network and [respond] the platform's answer to each) and
    [DrataMockClient]. *)
Inductive DrataSink : Type :=
| DrataLive (respond : string -> json -> PyResult json) (sent : list (string * json))
| DrataMock (verbose : bool) (submitted_evidence : list json).

(** [submit_external_evidence] of either client. *)
Definition submit_external_evidence (client : DrataSink) (monitor_id : string)
  (evidence : DrataEvidencePayload) : DrataSink * PyResult json :=
  let payload := to_dict evidence in
  match client with
  | DrataLive respond sent =>
      (DrataLive respond (app sent [(monitor_id, payload)]), respond monitor_id payload)
  | DrataMock verbose submitted =>
      let submitted' := app submitted [JObj [("monitor_id", JStr monitor_id); ("payload", payload)]] in
      (DrataMock verbose submitted',
       POk (JObj [("status", JStr "mock"); ("id", JStr ("mock-" ++ decimal (length submitted')))]))
  end.

(** [push_to_drata]: the sink client after the loop and the console
    lines it printed (the header lines are left out). *)
Fixpoint push_to_drata (results : list Evidence) (client : DrataSink) (dry_run : bool)
  : PyResult (DrataSink * list string) :=
  match results with
  | [] => POk (client, [])
  | evidence :: rest =>
      let payload := payload_of evidence in
      let monitor_id := monitor_id_of evidence in
      let step :=
        if dry_run then
          POk (client, "Would push " ++ test_id evidence ++ " to monitor " ++ monitor_id)
        else
          let '(client', r) := submit_external_evidence client monitor_id payload in
          match r with
          | POk _ => POk (client', "Pushed " ++ test_id evidence)
          | PRaise e =>
              if is_exception e
              then POk (client', "Failed to push " ++ test_id evidence ++ ": " ++ exc_str e)
              else PRaise e
          end in
      let* st := step in
      let* rest_out := push_to_drata rest (fst st) dry_run in
      POk (fst rest_out, snd st :: snd rest_out)
  end.

(** The sink client [main] builds: the mock in dry-run mode, else the
    live client. *)
Definition make_sink (dry_run verbose : bool) (live : DrataSink) : DrataSink :=
  if dry_run then DrataMock verbose [] else live.

(** [DrataMockClient.submitted_evidence] / the network log of [DrataClient]. *)
Definition recorded (client : DrataSink) : list json :=
  match client with
  | DrataMock _ submitted => submitted
  | DrataLive _ sent => map (fun mp => JObj [("monitor_id", JStr (fst mp)); ("payload", snd mp)]) sent
  end.

(* ------------------------------------------------------------------ *)
(** ** Configuration (config.py) *)

(** The process environment, as [os.environ] sees it. *)
Definition Env : Type := list (string * string).

Definition env_lookup (env : Env) (k : string) : option string :=
  fold_left (fun acc kv => if String.eqb (fst kv) k then Some (snd kv) else acc) env None.

(** [os.environ[k]] *)
Definition environ (env : Env) (k : string) : PyResult string :=
  match env_lookup env k with Some v => POk v | None => PRaise (key_error k) end.

(** [os.getenv(k, default)] *)
Definition getenv (env : Env) (k dflt : string) : string :=
  match env_lookup env k with Some v => v | None => dflt end.

Record KongConfig : Type := mkKongConfig {
  konnect_token : string; konnect_region : string; control_plane_name : string;
  dataplane_url : string; free_trial_key : string; pro_key : string }.

(** [KongConfig.from_env] *)
Definition KongConfig_from_env (env : Env) : PyResult KongConfig :=
  let* konnect_token := environ env "KONNECT_TOKEN" in
  let konnect_region := getenv env "KONNECT_REGION" "us" in
  let control_plane_name := getenv env "CONTROL_PLANE_NAME" "kong-hybrid-rate-limit-demo" in
  let* dataplane_url := environ env "DATAPLANE_URL" in
  let free_trial_key := getenv env "FREE_TRIAL_KEY" "free-trial-key" in
  let pro_key := getenv env "PRO_KEY" "pro-key" in
  POk (mkKongConfig konnect_token konnect_region control_plane_name dataplane_url
                    free_trial_key pro_key).

Record DrataConfig : Type := mkDrataConfig { api_key : string; api_base : string }.

(** [DrataConfig.from_env] *)
Definition DrataConfig_from_env (env : Env) : PyResult DrataConfig :=
  let* api_key := environ env "DRATA_API_KEY" in
  POk (mkDrataConfig api_key (getenv env "DRATA_API_BASE" "https://public-api.drata.com")).

Record GCPConfig : Type := mkGCPConfig { project_id : string; region : string }.

(** [GCPConfig.from_env] *)
Definition GCPConfig_from_env (env : Env) : GCPConfig :=
  mkGCPConfig (getenv env "GCP_PROJECT_ID" "drata-kong-tests") (getenv env "GCP_REGION" "us-east1").

Record Config : Type := mkConfig {
  kong : KongConfig; drata : DrataConfig; gcp : GCPConfig; dry_run : bool; verbose : bool }.

(** [os.getenv(k, "false").lower() == "true"] *)
Definition env_flag (env : Env) (k : string) : bool :=
  String.eqb (lower (getenv env k "false")) "true".

(** [Config.from_env], i.e. [load_config] *)
Definition load_config (env : Env) : PyResult Config :=
  let* kong := KongConfig_from_env env in
  let* drata := DrataConfig_from_env env in
  POk (mkConfig kong drata (GCPConfig_from_env env) (env_flag env "DRY_RUN") (env_flag env "VERBOSE")).

(** The three variables [load_config] requires, in the order it reads them. *)
Definition required_vars : list string := ["KONNECT_TOKEN"; "DATAPLANE_URL"; "DRATA_API_KEY"].

(* ------------------------------------------------------------------ *)
(** ** Request URLs ([DataplaneClient.__init__]/[request], [DrataClient.__init__]/[_request]) *)

Fixpoint drop_slashes (l : list ascii) : list ascii :=
  match l with
  | c :: r => if Ascii.eqb c "/"%char then drop_slashes r else l
  | [] => []
  end.

(** [s.rstrip("/")] *)
Definition rstrip_slash (s : string) : string :=
  string_of_list_ascii (rev (drop_slashes (rev (list_ascii_of_string s)))).

(** [f"{self.base_url}{path}"] with [self.base_url = base_url.rstrip("/")];
    [DrataClient] builds its URLs from [api_base] the same way. *)
Definition request_url (base_url path : string) : string := rstrip_slash base_url ++ path.

(* ------------------------------------------------------------------ *)
(** ** Control-plane lookup ([KonnectClient._get_control_plane_id]) *)

Definition value_error (msg : string) : PyExc := mkExc ExcException ("ValueError: " ++ msg).

(** The loop over [data.get("data", [])]: the first control plane whose
    name is [control_plane_name]. *)
Fixpoint find_control_plane (control_plane_name : string) (cps : list json) : PyResult json :=
  match cps with
  | [] => PRaise (value_error ("Control plane '" ++ control_plane_name ++ "' not found"))
  | cp :: rest =>
      let* nm := py_get cp "name" JNull in
      if eq_str nm control_plane_name then py_index cp "id"
      else find_control_plane control_plane_name rest
  end.

(** The uncached path: [fetch] is the parsed body of
    GET /v2/control-planes after [raise_for_status] (or what it raised). *)
Definition fetch_control_plane_id (fetch : PyResult json) (control_plane_name : string)
  : PyResult json :=
  let* data := fetch in
  let* cps := py_get data "data" (JList []) in
  let* items := py_iter cps in
  find_control_plane control_plane_name items.

(** [KonnectClient._get_control_plane_id] on the cached
    [self.control_plane_id] ([JNull] for [None]): the returned id and the
    cache afterwards. *)
Definition get_control_plane_id (fetch : PyResult json) (control_plane_name : string)
  (control_plane_id : json) : PyResult json * json :=
  if truthy control_plane_id then (POk control_plane_id, control_plane_id)
  else match fetch_control_plane_id fetch control_plane_name with
       | POk id => (POk id, id)
       | PRaise e => (PRaise e, control_plane_id)
       end.

(** Successive [_get_control_plane_id] calls on one [KonnectClient] (one
    per [_admin_url], as the configuration checks make them): [fetches]
    holds what the API would answer at each call; the results and the
    cache at the end. *)
Fixpoint control_plane_calls (fetches : list (PyResult json)) (control_plane_name : string)
  (control_plane_id : json) : list (PyResult json) * json :=
  match fetches with
  | [] => ([], control_plane_id)
  | f :: fs =>
      let '(r, c') := get_control_plane_id f control_plane_name control_plane_id in
      let '(rs, c'') := control_plane_calls fs control_plane_name c' in
      (r :: rs, c'')
  end.

(* ------------------------------------------------------------------ *)
(** ** Summary table and results file (main.py) *)

(** The "Test Name" cell of [print_summary]. *)
Definition name_cell (test_name : string) : string :=
  if (40 <? String.length test_name)%nat then substring 0 40 test_name ++ "..." else test_name.

(** [result_style] in [print_summary]. *)
Definition result_style (r : string) : string :=
  if String.eqb r "PASS" then "green"
  else if String.eqb r "FAIL" then "red"
  else if String.eqb r "ERROR" then "yellow"
  else if String.eqb r "SKIP" then "dim"
  else "white".

(** The "Controls" cell of [print_summary]. *)
Definition controls_cell (control_mapping : list string) : string :=
  String.concat ", " (firstn 3 control_mapping).

(** [Evidence.to_dict], i.e. [asdict], as written to the [--output] file. *)
Definition evidence_to_dict (e : Evidence) : json :=
  JObj [("test_id", JStr (test_id e)); ("test_name", JStr (test_name e));
        ("timestamp", JStr (timestamp e)); ("result", JStr (result e));
        ("control_mapping", JList (map JStr (control_mapping e)));
        ("duration_ms", JInt (duration_ms e)); ("details", details e);
        ("artifacts", JList (artifacts e));
        ("error_message", match error_message e with Some s => JStr s | None => JNull end)].

(** The configuration [main] runs with after the [--dry-run] override. *)
Definition main_config (args_dry_run args_verbose : bool) (config : Config) : Config :=
  if args_dry_run
  then mkConfig (kong config) (drata config) (gcp config) true (args_verbose || verbose config)
  else config.

(* ================================================================== *)
(** * Properties *)

Lemma pybind_ok {A B} (m : PyResult A) (k : A -> PyResult B) (x : B) :
  pybind m k = POk x -> exists a, m = POk a /\ k a = POk x.
Proof. destruct m as [a|e]; simpl; [eauto | discriminate]. Qed.

(** Python [int] of a non-negative number is non-negative. *)
Lemma py_int_nonneg (x : Q) : 0 <= x -> (0 <= py_int x)%Z.
Proof.
  destruct x as [n d]. unfold Qle, py_int. simpl. intros H.
  apply Z.quot_pos; lia.
Qed.

Lemma elapsed_ms_nonneg (c : Clock) : start_time c <= end_time c -> (0 <= elapsed_ms c)%Z.
Proof.
  intros H. unfold elapsed_ms. apply py_int_nonneg.
  apply Qmult_le_0_compat.
  - apply Qle_minus_iff in H. exact H.
  - discriminate.
Qed.

Definition outcomes : list string := ["PASS"; "FAIL"; "ERROR"; "SKIP"].

Lemma value_in_outcomes (r : TestResult) : In (value r) outcomes.
Proof. destruct r; simpl; tauto. Qed.

(** Every Evidence record [run] returns carries one of the four outcomes. *)
Lemma run_result_in_outcomes (t : BaseTest) (c : Clock) (ev : Evidence) :
  run t c = POk ev -> In (result ev) outcomes.
Proof.
  unfold run. destruct (bt_execute t) as [[[r d] arts]|e].
  - intros H. injection H as <-. apply value_in_outcomes.
  - destruct (is_exception e); [|discriminate].
    intros H. injection H as <-. exact (value_in_outcomes ERROR).
Qed.

(** A test whose [execute] returns [(PASS, {}, [])]. *)
Definition passing_test : BaseTest := mkTest "T-1" "passing" [] (POk (PASS, JObj [], [])).

(** A test whose [execute] is interrupted (KeyboardInterrupt). *)
Definition interrupted_test : BaseTest :=
  mkTest "T-2" "interrupted" [] (PRaise (mkExc ExcBaseOnly "KeyboardInterrupt")).

(** A test whose [execute] returns [(ERROR, {}, [])] without raising. *)
Definition error_returning_test : BaseTest := mkTest "T-3" "error" [] (POk (ERROR, JObj [], [])).

(** The wall clock set back by one second while [execute] runs. *)
Definition clock_set_back : Clock := mkClock "2026-01-01T00:00:10+00:00" 10 9.

(** C1 (code bug): [run] measures [duration_ms] as the truncated
    difference of two [time.time()] readings, the wall clock, where the
    spec's run contract asks for a monotonic start instant. In general,
    [run] either lets a non-[Exception] [BaseException] of [execute]
    through, or returns one Evidence record whose result is one of the
    four outcomes, whose [duration_ms] is exactly [elapsed_ms c] (so
    non-negative when the clock did not move back) and which, when
    [execute] raised an [Exception], has result ERROR, empty details and
    artifacts and [error_message = str(e)]. With the wall clock set back
    by one second during [execute], a passing check is recorded with
    [duration_ms = -1000]; and an interrupted [execute]
    (KeyboardInterrupt) propagates out of [run]. *)
Theorem run_wall_clock_duration (t : BaseTest) (c : Clock) :
  ((exists e, bt_execute t = PRaise e /\ is_exception e = false /\ run t c = PRaise e) \/
   (exists ev, run t c = POk ev
      /\ In (result ev) outcomes
      /\ duration_ms ev = elapsed_ms c
      /\ (start_time c <= end_time c -> (0 <= duration_ms ev)%Z)
      /\ (forall e, bt_execute t = PRaise e ->
            result ev = "ERROR" /\ details ev = JObj [] /\ artifacts ev = []
            /\ error_message ev = Some (exc_str e))))
  /\ (exists ev, run passing_test clock_set_back = POk ev /\ duration_ms ev = (-1000)%Z)
  /\ run interrupted_test c = PRaise (mkExc ExcBaseOnly "KeyboardInterrupt").
Proof.
  split; [|split].
  - unfold run. destruct (bt_execute t) as [[[r d] arts]|e] eqn:Hx.
    + right. eexists. split; [reflexivity|]. simpl.
      split; [apply value_in_outcomes|]. split; [reflexivity|].
      split; [apply elapsed_ms_nonneg|].
      intros e He. discriminate He.
    + destruct (is_exception e) eqn:He.
      * right. eexists. split; [reflexivity|]. simpl.
        split; [tauto|]. split; [reflexivity|]. split; [apply elapsed_ms_nonneg|].
        intros e' He'. injection He' as <-. repeat split.
      * left. exists e. repeat split. exact He.
  - eexists. split; [reflexivity|]. vm_compute. reflexivity.
  - reflexivity.
Qed.

(** Peels the binds of an [execute] that returned normally, down to its
    final [POk (pass_or_fail _, _, _)]. *)
Ltac peel_ok :=
  repeat match goal with
  | H : pybind ?m ?k = POk _ |- _ =>
      let a := fresh "a" in let Hm := fresh "Hm" in
      apply pybind_ok in H; destruct H as [a [Hm H]]; cbv beta in H
  | H : (let '(_, _) := ?p in _) = POk _ |- _ => destruct p
  | H : POk _ = POk _ |- _ => injection H; clear H; intros; subst
  end.

Lemma pass_or_fail_cases (b : bool) : pass_or_fail b = PASS \/ pass_or_fail b = FAIL.
Proof. destruct b; [left|right]; reflexivity. Qed.

Ltac pf_tac := peel_ok; apply pass_or_fail_cases.

Section SuiteResults.
Variables (dp : Dataplane) (admin : Admin) (k k' : string).
Variables (r : TestResult) (d : json) (a : list EvidenceArtifact).

Lemma RT001_pf : RT001_execute dp k = POk (r, d, a) -> r = PASS \/ r = FAIL.
Proof. unfold RT001_execute. intros H. pf_tac. Qed.
Lemma RT002_pf : RT002_execute dp k = POk (r, d, a) -> r = PASS \/ r = FAIL.
Proof. unfold RT002_execute. intros H. pf_tac. Qed.
Lemma key_rejected_pf (key : option string) (desc : string) :
  key_rejected_execute dp key desc = POk (r, d, a) -> r = PASS \/ r = FAIL.
Proof. unfold key_rejected_execute. intros H. pf_tac. Qed.
Lemma RT005_pf : RT005_execute dp k = POk (r, d, a) -> r = PASS \/ r = FAIL.
Proof. unfold RT005_execute. intros H. pf_tac. Qed.
Lemma RT006_pf : RT006_execute dp k k' = POk (r, d, a) -> r = PASS \/ r = FAIL.
Proof. unfold RT006_execute. intros H. pf_tac. Qed.
Lemma CF001_pf : CF001_execute admin = POk (r, d, a) -> r = PASS \/ r = FAIL.
Proof. unfold CF001_execute. intros H. pf_tac. Qed.
Lemma CF002_pf : CF002_execute admin = POk (r, d, a) -> r = PASS \/ r = FAIL.
Proof. unfold CF002_execute. intros H. pf_tac. Qed.
Lemma CF003_on_pf (cs : list KongConsumer) (ps : list KongPlugin) :
  CF003_execute_on cs ps = POk (r, d, a) -> r = PASS \/ r = FAIL.
Proof. unfold CF003_execute_on. intros H. pf_tac. Qed.
Lemma CF003_pf : CF003_execute admin = POk (r, d, a) -> r = PASS \/ r = FAIL.
Proof. unfold CF003_execute. intros H. peel_ok. eapply CF003_on_pf. eassumption. Qed.

End SuiteResults.

(** The nine checks of the suite never return ERROR (or SKIP) normally. *)
Lemma suite_execute_pass_or_fail (free_trial_key pro_key : string) (dps : nat -> Dataplane)
  (admin : Admin) (t : BaseTest) (r : TestResult) (d : json) (a : list EvidenceArtifact) :
  In t (create_tests free_trial_key pro_key dps admin) ->
  bt_execute t = POk (r, d, a) -> r = PASS \/ r = FAIL.
Proof.
  simpl. intros Hin Hx.
  repeat destruct Hin as [<-|Hin]; simpl in Hx;
    [ eapply RT001_pf | eapply RT002_pf | eapply key_rejected_pf | eapply key_rejected_pf
    | eapply RT005_pf | eapply RT006_pf | eapply CF001_pf | eapply CF002_pf
    | eapply CF003_pf | contradiction ]; exact Hx.
Qed.

(** C2 (counterexample): an ERROR returned normally by [execute] gives
    an Evidence record with result ERROR and no [error_message]. *)
Lemma C2_counterexample :
  run error_returning_test clock_set_back =
  POk (mkEvidence "T-3" "error" "2026-01-01T00:00:10+00:00" "ERROR" [] (-1000) (JObj []) [] None).
Proof. vm_compute. reflexivity. Qed.

(** C2 (amended): in every Evidence record [run] produces,
    [error_message] is set iff [execute] raised (an [Exception]); a
    record with [error_message] has result ERROR and a record with
    another result has none. For the nine checks of the suite, which
    never return ERROR normally, [error_message] is set iff result is
    ERROR. *)
Theorem run_error_message_iff_raised (t : BaseTest) (c : Clock) (ev : Evidence)
  (Hrun : run t c = POk ev) :
  (error_message ev <> None <-> exists e, bt_execute t = PRaise e)
  /\ (error_message ev <> None -> result ev = "ERROR")
  /\ (result ev <> "ERROR" -> error_message ev = None)
  /\ (forall free_trial_key pro_key dps admin,
        In t (create_tests free_trial_key pro_key dps admin) ->
        (error_message ev <> None <-> result ev = "ERROR")).
Proof.
  unfold run in Hrun.
  destruct (bt_execute t) as [[[r d] arts]|e] eqn:Hx.
  - injection Hrun as <-. simpl.
    split; [split; [congruence | intros [e He]; discriminate He]|].
    split; [congruence|]. split; [reflexivity|].
    intros free pro dps admin Hin. split; [congruence|].
    destruct (suite_execute_pass_or_fail free pro dps admin t r d arts Hin Hx) as [-> | ->];
      simpl; discriminate.
  - destruct (is_exception e); [|discriminate].
    injection Hrun as <-. simpl.
    split; [split; [eauto | discriminate]|].
    split; [reflexivity|]. split; [congruence|].
    intros; split; [reflexivity | discriminate].
Qed.

(** Witness: the invalid-key check run against a gateway that answers 401. *)
Definition gateway_401 : Dataplane := fun _ _ _ => POk (mkResponse 401 [] None).

(** The record [run] produces for it. *)
Definition RT003_evidence_401 : Evidence :=
  mkEvidence "RT-003" "Invalid API key rejected (401)" "2026-01-01T00:00:10+00:00" "PASS"
    ["CC6.1"; "CC6.6"] (-1000)
    (JObj [("api_key_used", JStr "invalid-key-12345"); ("expected_status", JInt 401);
           ("actual_status", JInt 401); ("rejected", JBool true)])
    [JObj [("type", JStr "http_response");
           ("description", JStr "Response from invalid key request");
           ("data", JObj [("status_code", JInt 401); ("headers", JObj [])])]] None.

Lemma run_error_message_iff_raised_witness :
  run (RT003_InvalidKeyRejected gateway_401) clock_set_back = POk RT003_evidence_401
  /\ error_message RT003_evidence_401 = None.
Proof.
  assert (H : run (RT003_InvalidKeyRejected gateway_401) clock_set_back = POk RT003_evidence_401)
    by (vm_compute; reflexivity).
  split; [exact H|].
  destruct (run_error_message_iff_raised _ _ _ H) as [_ [_ [Hne _]]].
  apply Hne. discriminate.
Defined.

(** The gateway unreachable: every data-plane request raises [e]. *)
Definition gateway_down (e : PyExc) : Dataplane := fun _ _ _ => PRaise e.

Lemma py_mapM_const {A B} (f : A -> PyResult B) (b : B) (l : list A) :
  (forall x, f x = POk b) -> py_mapM f l = POk (map (fun _ => b) l).
Proof.
  intros Hf. induction l as [|x l IH]; simpl; [reflexivity|].
  rewrite Hf. simpl. rewrite IH. reflexivity.
Qed.

Section TransportFailure.
Variables (dp : Dataplane) (e : PyExc).
Hypothesis Hdown : forall i p k, dp i p k = PRaise e.
Hypothesis Hexc : is_exception e = true.

Lemma burst_all_zero (k path : string) (n : nat) :
  test_rate_limit dp k path n = POk (map (fun _ => 0%Z) (seq 0 n)).
Proof.
  unfold test_rate_limit. apply py_mapM_const.
  intros i. unfold dp_get. rewrite Hdown, Hexc. reflexivity.
Qed.

Lemma health_check_down (i : nat) (k : string) :
  health_check dp i k = POk (false, 0%Z, JObj [("error", JStr (exc_str e))]).
Proof. unfold health_check, dp_get. rewrite Hdown, Hexc. reflexivity. Qed.

Lemma get_whoami_down (i : nat) (k : string) :
  get_whoami dp i k = POk (0%Z, JObj [("error", JStr (exc_str e))]).
Proof. unfold get_whoami, dp_get. rewrite Hdown, Hexc. reflexivity. Qed.

End TransportFailure.

(** C3 (counterexample): with the gateway unreachable, the
    valid-key-accepted and identity-injection checks produce Evidence
    with result FAIL, not ERROR. *)
Lemma C3_counterexample :
  let down := gateway_down (mkExc ExcException "ConnectionError: connection refused") in
  (exists ev, run (RT005_ValidKeyAccepted down "pro-key") clock_set_back = POk ev
              /\ result ev = "FAIL")
  /\ (exists ev, run (RT006_ConsumerIdentityInjected down "pro-key" "tier_pro") clock_set_back = POk ev
              /\ result ev = "FAIL").
Proof. split; eexists; split; (vm_compute; reflexivity). Qed.

(** C3 (amended): when every data-plane request raises an [Exception]
    [e], [run] turns it into ERROR (with [error_message = str(e)]) only
    for the two checks that call [get] directly (invalid key, missing
    key); [health_check] and [get_whoami] catch it and report status 0,
    so the valid-key-accepted and identity-injection checks yield FAIL,
    and the rate-limit bursts record status 0, so both rate-limit checks
    yield FAIL. *)
Theorem transport_failure_outcomes (dp : Dataplane) (e : PyExc)
  (Hdown : forall i p k, dp i p k = PRaise e) (Hexc : is_exception e = true)
  (free_trial_key pro_key expected_custom_id : string) (c : Clock) :
  (exists ev, run (RT001_RateLimitFreeTier dp free_trial_key) c = POk ev /\ result ev = "FAIL")
  /\ (exists ev, run (RT002_RateLimitProTier dp pro_key) c = POk ev /\ result ev = "FAIL")
  /\ (exists ev, run (RT003_InvalidKeyRejected dp) c = POk ev /\ result ev = "ERROR"
                 /\ error_message ev = Some (exc_str e))
  /\ (exists ev, run (RT004_MissingKeyRejected dp) c = POk ev /\ result ev = "ERROR"
                 /\ error_message ev = Some (exc_str e))
  /\ (exists ev, run (RT005_ValidKeyAccepted dp pro_key) c = POk ev /\ result ev = "FAIL")
  /\ (exists ev, run (RT006_ConsumerIdentityInjected dp pro_key expected_custom_id) c = POk ev
                 /\ result ev = "FAIL").
Proof.
  unfold run; simpl.
  unfold RT001_execute, RT002_execute, RT003_execute, RT004_execute,
    key_rejected_execute, RT005_execute, RT006_execute.
  rewrite !(burst_all_zero dp e Hdown Hexc), (health_check_down dp e Hdown Hexc),
    (get_whoami_down dp e Hdown Hexc).
  unfold dp_get. rewrite !Hdown. simpl. rewrite Hexc.
  repeat split; eexists; repeat split.
Qed.

Lemma transport_failure_outcomes_witness :
  let e := mkExc ExcException "ReadTimeout" in
  (forall i p k, gateway_down e i p k = PRaise e) /\ is_exception e = true /\
  (exists ev, run (RT003_InvalidKeyRejected (gateway_down e)) clock_set_back = POk ev
              /\ result ev = "ERROR" /\ error_message ev = Some (exc_str e)).
Proof.
  intros e. split; [reflexivity|]. split; [reflexivity|].
  destruct (transport_failure_outcomes (gateway_down e) e (fun _ _ _ => eq_refl) eq_refl
              "free-key" "pro-key" "tier_pro" clock_set_back) as [_ [_ [H3 _]]].
  exact H3.
Defined.

(** In dry-run mode [push_to_drata] never calls the sink client: the
    client comes back unchanged and only "Would push" lines are printed. *)
Lemma push_dry_run_unchanged (results : list Evidence) (client : DrataSink) :
  push_to_drata results client true =
  POk (client, map (fun ev => "Would push " ++ test_id ev ++ " to monitor " ++ monitor_id_of ev)
                   results).
Proof.
  induction results as [|ev rest IH]; simpl; [reflexivity|].
  rewrite IH. reflexivity.
Qed.

(** The RT-001 record of a passing run. *)
Definition RT001_evidence_pass : Evidence :=
  mkEvidence "RT-001" "Rate limiting enforces free tier (5 req/min)" "2026-01-01T00:00:00+00:00"
    "PASS" ["CC6.1"; "CC6.3"; "CC7.2"] 1500 (JObj []) [] None.

(** C4 (code_bug): in dry-run mode [main] builds a [DrataMockClient]
    and [push_to_drata] never hands it a submission: after the batch its
    [submitted_evidence] is still empty, for every results list. *)
Theorem dry_run_records_nothing (results : list Evidence) (verbose : bool) (live : DrataSink) :
  exists client' lines,
    push_to_drata results (make_sink true verbose live) true = POk (client', lines)
    /\ client' = DrataMock verbose []
    /\ recorded client' = []
    /\ (results = [RT001_evidence_pass] -> lines = ["Would push RT-001 to monitor kong-rt-001"]).
Proof.
  do 2 eexists. rewrite push_dry_run_unchanged. split; [reflexivity|].
  split; [reflexivity|]. split; [reflexivity|]. intros ->. reflexivity.
Qed.

(* ------------------------------------------------------------------ *)

Lemma run_tests_outcomes (tests : list (BaseTest * Clock)) (results : list Evidence) :
  run_tests tests = POk results -> Forall (fun ev => In (result ev) outcomes) results.
Proof.
  unfold run_tests. revert results.
  induction tests as [|[t c] tests IH]; simpl; intros results H.
  - injection H as <-. constructor.
  - apply pybind_ok in H. destruct H as [ev [Hev H]].
    apply pybind_ok in H. destruct H as [evs [Hevs H]].
    injection H as <-. constructor.
    + exact (run_result_in_outcomes t c ev Hev).
    + exact (IH evs Hevs).
Qed.

Lemma counts_partition (results : list Evidence) :
  Forall (fun ev => In (result ev) outcomes) results ->
  (count_result "PASS" results + count_result "FAIL" results + count_result "ERROR" results
   + count_result "SKIP" results = length results)%nat.
Proof.
  induction 1 as [|ev rest Hin _ IH]; [reflexivity|].
  unfold count_result in *. simpl.
  destruct Hin as [Hr|[Hr|[Hr|[Hr|[]]]]]; rewrite <- Hr; simpl; lia.
Qed.

Lemma failed_count_split (results : list Evidence) :
  length (filter (fun r => String.eqb (result r) "FAIL" || String.eqb (result r) "ERROR") results)
  = (count_result "FAIL" results + count_result "ERROR" results)%nat.
Proof.
  unfold count_result. induction results as [|ev rest IH]; [reflexivity|]. simpl.
  destruct (String.eqb (result ev) "FAIL") eqn:Hf;
  destruct (String.eqb (result ev) "ERROR") eqn:He; simpl; rewrite IH; try lia.
  apply String.eqb_eq in Hf. rewrite Hf in He. discriminate He.
Qed.

(** C5: for every results list [run_tests] produces, the per-outcome
    counts of [print_summary] together with the SKIP count partition the
    list, and [main] exits with 1 iff FAIL + ERROR is nonzero (0
    otherwise). *)
Theorem summary_partition_and_exit (tests : list (BaseTest * Clock)) (results : list Evidence)
  (Hrun : run_tests tests = POk results) :
  (passed (summary_stats results) + failed (summary_stats results) + errors (summary_stats results)
   + skipped results = total (summary_stats results))%nat
  /\ (exit_code results = 1%Z <-> (0 < failed (summary_stats results) + errors (summary_stats results))%nat)
  /\ (exit_code results = 0%Z <-> (failed (summary_stats results) + errors (summary_stats results) = 0)%nat).
Proof.
  simpl. split.
  - apply counts_partition. exact (run_tests_outcomes tests results Hrun).
  - unfold exit_code. rewrite failed_count_split.
    destruct (Nat.ltb_spec 0 (count_result "FAIL" results + count_result "ERROR" results));
      split; intros; try lia; discriminate.
Qed.

Lemma summary_partition_and_exit_witness :
  let tests := [(passing_test, clock_set_back); (error_returning_test, clock_set_back);
                (interrupted_test, clock_set_back)] in
  run_tests (firstn 2 tests) =
    POk [mkEvidence "T-1" "passing" "2026-01-01T00:00:10+00:00" "PASS" [] (-1000) (JObj []) [] None;
         mkEvidence "T-3" "error" "2026-01-01T00:00:10+00:00" "ERROR" [] (-1000) (JObj []) [] None]
  /\ exit_code [mkEvidence "T-1" "passing" "2026-01-01T00:00:10+00:00" "PASS" [] (-1000) (JObj []) [] None;
                mkEvidence "T-3" "error" "2026-01-01T00:00:10+00:00" "ERROR" [] (-1000) (JObj []) [] None] = 1%Z.
Proof.
  intros tests.
  assert (H : run_tests (firstn 2 tests) =
    POk [mkEvidence "T-1" "passing" "2026-01-01T00:00:10+00:00" "PASS" [] (-1000) (JObj []) [] None;
         mkEvidence "T-3" "error" "2026-01-01T00:00:10+00:00" "ERROR" [] (-1000) (JObj []) [] None])
    by (vm_compute; reflexivity).
  split; [exact H|].
  apply (summary_partition_and_exit _ _ H). vm_compute. lia.
Defined.

(* ------------------------------------------------------------------ *)

Definition json_field (j : json) (k : string) : option json :=
  match j with JObj kvs => dict_lookup kvs k | _ => None end.

(** The platform status of an Evidence record. *)
Definition mapped_status (e : Evidence) : option json := json_field (to_dict (payload_of e)) "status".

(** A live platform that accepts every submission. *)
Definition accepting_platform : string -> json -> PyResult json := fun _ _ => POk (JObj []).

(** C6: the sink maps PASS to "PASSING" and FAIL, ERROR, SKIP to
    "FAILING", the status depends on the result alone, submitting the
    same Evidence twice sends the same target and payload twice, and
    the target is "kong-" followed by the lower-cased check id. *)
Theorem sink_mapping (e : Evidence) :
  (result e = "PASS" -> mapped_status e = Some (JStr "PASSING"))
  /\ (In (result e) ["FAIL"; "ERROR"; "SKIP"] -> mapped_status e = Some (JStr "FAILING"))
  /\ (forall e', result e' = result e -> mapped_status e' = mapped_status e)
  /\ push_to_drata [e; e] (DrataLive accepting_platform []) false =
       POk (DrataLive accepting_platform
              [(monitor_id_of e, to_dict (payload_of e)); (monitor_id_of e, to_dict (payload_of e))],
            ["Pushed " ++ test_id e; "Pushed " ++ test_id e])
  /\ monitor_id_of e = "kong-" ++ lower (test_id e)
  /\ (test_id e = "RT-001" -> monitor_id_of e = "kong-rt-001").
Proof.
  unfold mapped_status, json_field, to_dict, payload_of.
  split; [intros H; rewrite H; reflexivity|].
  split; [intros [H|[H|[H|[]]]]; rewrite <- H; reflexivity|].
  split; [intros e' ->; reflexivity|].
  split; [reflexivity|].
  split; [reflexivity|].
  unfold monitor_id_of. intros ->. reflexivity.
Qed.

(* ------------------------------------------------------------------ *)

Lemma py_mapM_length {A B} (f : A -> PyResult B) (l : list A) (l' : list B) :
  py_mapM f l = POk l' -> length l' = length l.
Proof.
  revert l'. induction l as [|x l IH]; simpl; intros l' H.
  - injection H as <-. reflexivity.
  - apply pybind_ok in H. destruct H as [y [_ H]].
    apply pybind_ok in H. destruct H as [ys [Hys H]].
    injection H as <-. simpl. f_equal. apply IH. exact Hys.
Qed.

Lemma count_eq_pos_In (z : Z) (l : list Z) : (0 < count_eq z l)%Z <-> In z l.
Proof.
  unfold count_eq. induction l as [|x l IH]; simpl.
  - split; [lia | contradiction].
  - destruct (Z.eqb_spec x z) as [->|Hne]; simpl.
    + split; [auto | lia].
    + rewrite IH. split; [auto | intros [->|H]; [congruence | exact H]].
Qed.

(** The gateway answering the [i]-th request with the [i]-th status of a list. *)
Definition dp_of_statuses (l : list Z) : Dataplane :=
  fun i _ _ => POk (mkResponse (nth i l 0%Z) [] None).

(** C7: on the free tier, the burst has 8 status codes and the result is
    PASS iff a 429 is among them and at most 5 of them are 200 (FAIL
    otherwise); [200 x5, 429 x3] passes and eight 200s fail. *)
Theorem free_tier_pass_iff (dp : Dataplane) (api_key : string) (statuses : list Z)
  (Hburst : test_rate_limit dp api_key "/api/hello" 8 = POk statuses) :
  length statuses = 8%nat
  /\ (exists r d a, RT001_execute dp api_key = POk (r, d, a)
        /\ (r = PASS \/ r = FAIL)
        /\ (r = PASS <-> In 429%Z statuses /\ (count_eq 200 statuses <= 5)%Z))
  /\ (exists d a, RT001_execute (dp_of_statuses [200; 200; 200; 200; 200; 429; 429; 429]%Z) api_key
                  = POk (PASS, d, a))
  /\ (exists d a, RT001_execute (dp_of_statuses (repeat 200%Z 8)) api_key = POk (FAIL, d, a)).
Proof.
  split; [exact (py_mapM_length _ _ _ Hburst)|].
  split; [|split; do 2 eexists; reflexivity].
  unfold RT001_execute. rewrite Hburst. simpl pybind.
  do 3 eexists. split; [reflexivity|]. split; [apply pass_or_fail_cases|].
  rewrite <- count_eq_pos_In.
  destruct (Z.ltb_spec 0 (count_eq 429 statuses)); destruct (Z.leb_spec (count_eq 200 statuses) 5);
    simpl; split; intros; try discriminate; try reflexivity; lia.
Qed.

Lemma free_tier_pass_iff_witness :
  test_rate_limit (dp_of_statuses [200; 200; 200; 200; 200; 429; 429; 429]%Z) "free-key" "/api/hello" 8
    = POk [200; 200; 200; 200; 200; 429; 429; 429]%Z
  /\ length [200; 200; 200; 200; 200; 429; 429; 429]%Z = 8%nat.
Proof.
  assert (H : test_rate_limit (dp_of_statuses [200; 200; 200; 200; 200; 429; 429; 429]%Z)
                "free-key" "/api/hello" 8 = POk [200; 200; 200; 200; 200; 429; 429; 429]%Z)
    by reflexivity.
  split; [exact H|]. apply (free_tier_pass_iff _ _ _ H).
Defined.

(* ------------------------------------------------------------------ *)

Lemma py_mapM_map {A B} (f : A -> PyResult B) (g : A -> B) (l : list A) :
  (forall x, In x l -> f x = POk (g x)) -> py_mapM f l = POk (map g l).
Proof.
  induction l as [|x l IH]; simpl; intros Hf; [reflexivity|].
  rewrite (Hf x (or_introl eq_refl)). simpl.
  rewrite IH by (intros y Hy; apply Hf; right; exact Hy). reflexivity.
Qed.

(** The set CF-003 builds: the consumer ids of the enabled,
    consumer-scoped rate-limiting plugins. *)
Definition enabled_rate_limit_consumers (plugins : list KongPlugin) : list json :=
  map p_consumer_id (filter consumer_scoped plugins).

(** The consumer id of a plugin has its annotated type [Optional[str]]. *)
Definition opt_str_id (j : json) : Prop := j = JNull \/ exists s, j = JStr s.

Lemma consumers_with_limits_eq (plugins : list KongPlugin) :
  Forall (fun p => opt_str_id (p_consumer_id p)) plugins ->
  consumers_with_limits plugins = POk (enabled_rate_limit_consumers plugins).
Proof.
  intros Hp. unfold consumers_with_limits, enabled_rate_limit_consumers.
  apply py_mapM_map. intros p Hin. apply filter_In in Hin. destruct Hin as [Hin _].
  rewrite Forall_forall in Hp. destruct (Hp p Hin) as [->|[s ->]]; reflexivity.
Qed.

Lemma py_eq_str (s : string) (j : json) : py_eq (JStr s) j = true <-> j = JStr s.
Proof.
  destruct j; simpl; try (split; [discriminate | congruence]).
  rewrite String.eqb_eq. split; congruence.
Qed.

Lemma existsb_py_eq_In (s : string) (S : list json) :
  existsb (py_eq (JStr s)) S = true <-> In (JStr s) S.
Proof.
  rewrite existsb_exists. split.
  - intros [j [Hj He]]. apply py_eq_str in He. subst. exact Hj.
  - intros H. exists (JStr s). split; [exact H | apply py_eq_str; reflexivity].
Qed.

(** What one pass of the consumer loop yields. *)
Definition coverage_of (S : list json) (c : KongConsumer) : json * bool * json :=
  (JObj [("id", c_id c); ("username", c_username c); ("custom_id", c_custom_id c);
         ("has_rate_limit", JBool (existsb (py_eq (c_id c)) S))],
   existsb (py_eq (c_id c)) S, c_username c).

Lemma coverage_entries_eq (S : list json) (consumers : list KongConsumer) :
  Forall (fun c => exists s, c_id c = JStr s) consumers ->
  py_mapM (coverage_entry S) consumers = POk (map (coverage_of S) consumers).
Proof.
  intros Hc. apply py_mapM_map. intros c Hin.
  rewrite Forall_forall in Hc. destruct (Hc c Hin) as [s Hs].
  unfold coverage_entry, py_in_set, coverage_of. rewrite Hs. reflexivity.
Qed.

Definition missing_of (S : list json) (consumers : list KongConsumer) : list json :=
  map snd (filter (fun e => negb (snd (fst e))) (map (coverage_of S) consumers)).

Lemma missing_of_nil (S : list json) (consumers : list KongConsumer) :
  (forall c, In c consumers -> existsb (py_eq (c_id c)) S = true) -> missing_of S consumers = [].
Proof.
  unfold missing_of. induction consumers as [|c cs IH]; simpl; intros H; [reflexivity|].
  rewrite (H c (or_introl eq_refl)). simpl. apply IH. intros c' Hc'. apply H. right. exact Hc'.
Qed.

Lemma missing_of_In (S : list json) (consumers : list KongConsumer) (c : KongConsumer) :
  In c consumers -> existsb (py_eq (c_id c)) S = false -> In (c_username c) (missing_of S consumers).
Proof.
  unfold missing_of. induction consumers as [|c' cs IH]; simpl; [contradiction|].
  intros [->|Hin] Hf.
  - rewrite Hf. simpl. left. reflexivity.
  - destruct (existsb (py_eq (c_id c')) S); simpl; [|right]; apply IH; assumption.
Qed.

(** [CF003_execute_on] on consumer and plugin lists of the annotated types. *)
Lemma CF003_execute_on_eq (consumers : list KongConsumer) (plugins : list KongPlugin)
  (Hids : Forall (fun c => exists s, c_id c = JStr s) consumers)
  (Hpids : Forall (fun p => opt_str_id (p_consumer_id p)) plugins) :
  exists d a, CF003_execute_on consumers plugins =
    POk (pass_or_fail (Nat.eqb (length (missing_of (enabled_rate_limit_consumers plugins) consumers)) 0
                       && (0 <? length consumers)%nat), d, a)
    /\ json_field d "missing_limits"
       = Some (JList (missing_of (enabled_rate_limit_consumers plugins) consumers)).
Proof.
  unfold CF003_execute_on.
  rewrite (consumers_with_limits_eq plugins Hpids). simpl pybind.
  rewrite (coverage_entries_eq _ consumers Hids). simpl pybind.
  do 2 eexists. split; reflexivity.
Qed.

(** C8: for consumer and plugin lists whose ids have their annotated
    types ([str], [Optional[str]]): no consumers gives FAIL; a non-empty
    list whose every consumer id is in the set of consumer ids of enabled
    consumer-scoped rate-limiting plugins gives PASS; an uncovered
    consumer gives FAIL with its username in [details.missing_limits]. *)
Theorem all_consumers_have_limits_cases (consumers : list KongConsumer) (plugins : list KongPlugin)
  (Hids : Forall (fun c => exists s, c_id c = JStr s) consumers)
  (Hpids : Forall (fun p => opt_str_id (p_consumer_id p)) plugins) :
  (exists d a, CF003_execute_on [] plugins = POk (FAIL, d, a))
  /\ (consumers <> [] ->
      (forall c, In c consumers -> In (c_id c) (enabled_rate_limit_consumers plugins)) ->
      exists d a, CF003_execute_on consumers plugins = POk (PASS, d, a))
  /\ (forall c, In c consumers -> ~ In (c_id c) (enabled_rate_limit_consumers plugins) ->
      exists d a ml, CF003_execute_on consumers plugins = POk (FAIL, d, a)
                     /\ json_field d "missing_limits" = Some (JList ml)
                     /\ In (c_username c) ml).
Proof.
  split; [|split].
  - destruct (CF003_execute_on_eq [] plugins (Forall_nil _) Hpids) as [d [a [H _]]].
    exists d, a. rewrite H. reflexivity.
  - intros Hne Hall.
    destruct (CF003_execute_on_eq consumers plugins Hids Hpids) as [d [a [H _]]].
    exists d, a. rewrite H.
    rewrite missing_of_nil.
    + destruct consumers as [|c cs]; [congruence|]. reflexivity.
    + intros c Hc. rewrite Forall_forall in Hids. destruct (Hids c Hc) as [s Hs].
      rewrite Hs. apply existsb_py_eq_In. rewrite <- Hs. apply Hall. exact Hc.
  - intros c Hc Hout.
    destruct (CF003_execute_on_eq consumers plugins Hids Hpids) as [d [a [H Hd]]].
    assert (Hm : In (c_username c) (missing_of (enabled_rate_limit_consumers plugins) consumers)).
    { apply missing_of_In; [exact Hc|].
      rewrite Forall_forall in Hids. destruct (Hids c Hc) as [s Hs]. rewrite Hs.
      destruct (existsb (py_eq (JStr s)) _) eqn:E; [|reflexivity].
      apply existsb_py_eq_In in E. rewrite <- Hs in E. contradiction. }
    exists d, a, (missing_of (enabled_rate_limit_consumers plugins) consumers).
    split; [|split; [exact Hd | exact Hm]].
    rewrite H. destruct (missing_of _ consumers); [contradiction|]. reflexivity.
Qed.

(** A consumer and a plugin of the annotated types. *)
Definition consumer_gold : KongConsumer :=
  mkConsumer (JStr "c-1") (JStr "gold-user") (JStr "tier_pro") (JInt 0).
Definition plugin_for_c1 : KongPlugin :=
  mkPlugin (JStr "p-1") (JStr "rate-limiting") (JBool true) (JObj []) (JStr "c-1") JNull JNull.

Lemma all_consumers_have_limits_cases_witness :
  Forall (fun c => exists s, c_id c = JStr s) [consumer_gold]
  /\ Forall (fun p => opt_str_id (p_consumer_id p)) [plugin_for_c1]
  /\ (exists d a, CF003_execute_on [consumer_gold] [plugin_for_c1] = POk (PASS, d, a)).
Proof.
  assert (H1 : Forall (fun c => exists s, c_id c = JStr s) [consumer_gold])
    by (constructor; [exists "c-1"; reflexivity | constructor]).
  assert (H2 : Forall (fun p => opt_str_id (p_consumer_id p)) [plugin_for_c1])
    by (constructor; [right; exists "c-1"; reflexivity | constructor]).
  split; [exact H1|]. split; [exact H2|].
  destruct (all_consumers_have_limits_cases _ _ H1 H2) as [_ [Hpass _]].
  apply Hpass; [discriminate|].
  intros c [<-|[]]. simpl. left. reflexivity.
Defined.

(* ------------------------------------------------------------------ *)

(** The string the identity check compares with the expected identity:
    the value at [consumer.custom_id], a missing [consumer] or
    [custom_id] field read as the empty string; [None] when there is no
    such string (a [custom_id] that is not a string, or a [consumer]
    field that is not an object). *)
Definition custom_id_read (kvs : list (string * json)) : option string :=
  match dict_lookup kvs "consumer" with
  | None => Some ""
  | Some (JObj ckvs) =>
      match dict_lookup ckvs "custom_id" with
      | None => Some ""
      | Some (JStr s) => Some s
      | Some _ => None
      end
  | Some _ => None
  end.

Lemma pass_or_fail_PASS (b : bool) (D : json) (A : list EvidenceArtifact) :
  (exists d a, @POk (TestResult * json * list EvidenceArtifact) (pass_or_fail b, D, A)
               = POk (PASS, d, a)) <-> b = true.
Proof.
  destruct b; simpl; split; try reflexivity.
  - intros _. exists D, A. reflexivity.
  - intros [d [a H]]. discriminate H.
  - discriminate.
Qed.

Lemma no_PASS_of_raise (e : PyExc) :
  ~ (exists d a, @PRaise (TestResult * json * list EvidenceArtifact) e = POk (PASS, d, a)).
Proof. intros [d [a H]]. discriminate H. Qed.

Lemma eq_str_true (j : json) (s : string) : eq_str j s = true <-> j = JStr s.
Proof.
  destruct j; simpl; try (split; [discriminate | congruence]).
  rewrite String.eqb_eq. split; congruence.
Qed.

(** RT-006 on a whoami answer [(status, body)]: PASS iff the status is
    200, the body is an object and the string read at
    [consumer.custom_id] (missing fields read as "") is the expected one. *)
Lemma RT006_pass_iff (dp : Dataplane) (api_key expected_custom_id : string) (status : Z) (body : json)
  (Hw : get_whoami dp 0 api_key = POk (status, body)) :
  (exists d a, RT006_execute dp api_key expected_custom_id = POk (PASS, d, a)) <->
  status = 200%Z /\ exists kvs, body = JObj kvs /\ custom_id_read kvs = Some expected_custom_id.
Proof.
  unfold RT006_execute. rewrite Hw. cbn [pybind].
  destruct body as [| | | | | |kvs]; cbn [py_get];
    try (split; [intros H; destruct (no_PASS_of_raise _ H)
                | intros [_ [kvs [H _]]]; discriminate H]).
  cbn [pybind]. unfold custom_id_read.
  destruct (dict_lookup kvs "consumer") as [cj|] eqn:Hc.
  - destruct cj as [| | | | | |ckvs]; cbn [py_get pybind];
      try (split; [intros H; destruct (no_PASS_of_raise _ H)
                  | intros [_ [kvs' [H H']]]; injection H as <-; rewrite Hc in H'; discriminate H']).
    rewrite pass_or_fail_PASS, andb_true_iff, Z.eqb_eq, eq_str_true.
    split.
    + intros [Hs Hv]. split; [exact Hs|]. exists kvs. split; [reflexivity|].
      rewrite Hc. destruct (dict_lookup ckvs "custom_id") as [v|]; [rewrite Hv; reflexivity|].
      congruence.
    + intros [Hs [kvs' [H Hv]]]. injection H as <-. rewrite Hc in Hv.
      split; [exact Hs|].
      destruct (dict_lookup ckvs "custom_id") as [[| | | | | |]|]; congruence.
  - cbn [py_get pybind dict_lookup fold_left].
    rewrite pass_or_fail_PASS, andb_true_iff, Z.eqb_eq, eq_str_true.
    split.
    + intros [Hs Hv]. split; [exact Hs|]. exists kvs. split; [reflexivity|].
      rewrite Hc. congruence.
    + intros [Hs [kvs' [H Hv]]]. injection H as <-. rewrite Hc in Hv.
      split; [exact Hs|]. congruence.
Qed.

(** A gateway whose whoami answers 200 with a body that has no
    [consumer] field. *)
Definition whoami_no_consumer : Dataplane := fun _ _ _ => POk (mkResponse 200 [] (Some (JObj []))).

(** C9 (counterexample): configured with an empty expected identity,
    the identity check PASSes on a body with no [consumer] field. *)
Lemma C9_counterexample :
  exists d a, RT006_execute whoami_no_consumer "pro-key" "" = POk (PASS, d, a).
Proof. do 2 eexists. vm_compute. reflexivity. Qed.

(** C9 (amended): the identity check PASSes iff the status is 200 and
    the string read at [consumer.custom_id], a missing field read as "",
    equals the expected identity exactly; a body (an object) with no
    [consumer] field gives PASS iff the status is 200 and the expected
    identity is empty, so FAIL for any non-empty expected identity such
    as the configured "tier_pro"; a [consumer] field that is not an
    object (null, a string, a list, ...) makes [execute] raise
    AttributeError, which [run] records as ERROR with that message. *)
Theorem identity_injection_cases (dp : Dataplane) (api_key expected_custom_id : string)
  (status : Z) (body : json) (Hw : get_whoami dp 0 api_key = POk (status, body)) :
  ((exists d a, RT006_execute dp api_key expected_custom_id = POk (PASS, d, a)) <->
   status = 200%Z /\ exists kvs, body = JObj kvs /\ custom_id_read kvs = Some expected_custom_id)
  /\ (forall kvs, body = JObj kvs -> dict_lookup kvs "consumer" = None ->
      exists r d a, RT006_execute dp api_key expected_custom_id = POk (r, d, a)
        /\ (r = PASS <-> status = 200%Z /\ expected_custom_id = "")
        /\ (expected_custom_id <> "" -> r = FAIL))
  /\ (forall kvs v, body = JObj kvs -> dict_lookup kvs "consumer" = Some v ->
      (forall ckvs, v <> JObj ckvs) ->
      RT006_execute dp api_key expected_custom_id = PRaise attribute_error
      /\ forall c, exists ev,
           run (RT006_ConsumerIdentityInjected dp api_key expected_custom_id) c = POk ev
           /\ result ev = "ERROR" /\ error_message ev = Some (exc_str attribute_error)).
Proof.
  split; [exact (RT006_pass_iff dp api_key expected_custom_id status body Hw)|].
  split.
  2:{ intros kvs v -> Hc Hv.
      assert (Hx : RT006_execute dp api_key expected_custom_id = PRaise attribute_error).
      { unfold RT006_execute. rewrite Hw. cbn [pybind py_get]. rewrite Hc. cbn [pybind].
        destruct v as [| | | | | |ckvs]; try reflexivity. exfalso. exact (Hv ckvs eq_refl). }
      split; [exact Hx|].
      intros c. unfold run. cbn [bt_execute RT006_ConsumerIdentityInjected]. rewrite Hx.
      eexists. split; [reflexivity|]. split; reflexivity. }
  intros kvs -> Hc.
  unfold RT006_execute. rewrite Hw. cbn [pybind py_get]. rewrite Hc.
  cbn [pybind py_get dict_lookup fold_left eq_str].
  do 3 eexists. split; [reflexivity|].
  destruct (Z.eqb_spec status 200) as [Hs|Hs];
  destruct (String.eqb_spec "" expected_custom_id) as [He|He]; simpl;
    split; try split; intros; try congruence; intuition congruence.
Qed.

(** A gateway whose whoami answers 200 with [{"consumer": null}]. *)
Definition whoami_null_consumer : Dataplane :=
  fun _ _ _ => POk (mkResponse 200 [] (Some (JObj [("consumer", JNull)]))).

Lemma identity_injection_cases_witness :
  get_whoami whoami_no_consumer 0 "pro-key" = POk (200%Z, JObj [])
  /\ (exists r d a, RT006_execute whoami_no_consumer "pro-key" "tier_pro" = POk (r, d, a) /\ r = FAIL)
  /\ RT006_execute whoami_null_consumer "pro-key" "tier_pro" = PRaise attribute_error.
Proof.
  assert (Hw : get_whoami whoami_no_consumer 0 "pro-key" = POk (200%Z, JObj [])) by reflexivity.
  split; [exact Hw|]. split.
  - destruct (identity_injection_cases _ _ "tier_pro" _ _ Hw) as [_ [H _]].
    destruct (H [] eq_refl eq_refl) as [r [d [a [Hx [_ Hf]]]]].
    exists r, d, a. split; [exact Hx|]. apply Hf. discriminate.
  - assert (Hn : get_whoami whoami_null_consumer 0 "pro-key"
                 = POk (200%Z, JObj [("consumer", JNull)])) by reflexivity.
    destruct (identity_injection_cases _ _ "tier_pro" _ _ Hn) as [_ [_ H]].
    apply (H _ JNull eq_refl eq_refl). intros ckvs Hc. discriminate Hc.
Defined.

(* ------------------------------------------------------------------ *)

(** An admin API whose plugin listing never declares [enabled]: one
    key-auth plugin and one consumer-scoped rate-limiting plugin. *)
Definition unflagged_plugins : list json :=
  [JObj [("id", JStr "p-1"); ("name", JStr "key-auth")];
   JObj [("id", JStr "p-2"); ("name", JStr "rate-limiting");
         ("consumer", JObj [("id", JStr "c-1")]); ("config", JObj [("minute", JInt 5)])]].

Definition admin_unflagged : Admin := fun _ => POk (JObj [("data", JList unflagged_plugins)]).

(** C10: a plugin object without an [enabled] field is recorded by
    [get_plugins] with [enabled = True]; consequently the
    auth-plugin-enabled and rate-limit-plugin-enabled checks PASS on a
    listing none of whose plugins declares [enabled]. *)
Theorem missing_enabled_reads_true (kvs : list (string * json)) (p : KongPlugin)
  (Hno : dict_lookup kvs "enabled" = None) (Hp : parse_plugin (JObj kvs) = POk p) :
  p_enabled p = JBool true /\ truthy (p_enabled p) = true
  /\ Forall (fun item => json_field item "enabled" = None) unflagged_plugins
  /\ (exists d a, CF001_execute admin_unflagged = POk (PASS, d, a))
  /\ (exists d a, CF002_execute admin_unflagged = POk (PASS, d, a)).
Proof.
  assert (He : p_enabled p = JBool true).
  { unfold parse_plugin in Hp.
    apply pybind_ok in Hp. destruct Hp as [id [_ Hp]].
    apply pybind_ok in Hp. destruct Hp as [name [_ Hp]].
    apply pybind_ok in Hp. destruct Hp as [enabled [Hen Hp]].
    cbn [py_get] in Hen. rewrite Hno in Hen. injection Hen as <-.
    repeat (apply pybind_ok in Hp; destruct Hp as [? [_ Hp]]).
    injection Hp as <-. reflexivity. }
  split; [exact He|]. split; [rewrite He; reflexivity|].
  split; [repeat constructor|].
  split; do 2 eexists; vm_compute; reflexivity.
Qed.

Lemma missing_enabled_reads_true_witness :
  parse_plugin (JObj [("id", JStr "p-1"); ("name", JStr "key-auth")])
    = POk (mkPlugin (JStr "p-1") (JStr "key-auth") (JBool true) (JObj []) JNull JNull JNull)
  /\ p_enabled (mkPlugin (JStr "p-1") (JStr "key-auth") (JBool true) (JObj []) JNull JNull JNull)
     = JBool true.
Proof.
  assert (Hp : parse_plugin (JObj [("id", JStr "p-1"); ("name", JStr "key-auth")])
    = POk (mkPlugin (JStr "p-1") (JStr "key-auth") (JBool true) (JObj []) JNull JNull JNull))
    by (vm_compute; reflexivity).
  split; [exact Hp|].
  destruct (missing_enabled_reads_true [("id", JStr "p-1"); ("name", JStr "key-auth")] _ eq_refl Hp)
    as [He _].
  exact He.
Defined.

(* ================================================================== *)
(** * Further properties of the code *)

(** The first required variable the environment lacks. *)
Definition first_missing (env : Env) : option string :=
  find (fun k => match env_lookup env k with None => true | Some _ => false end) required_vars.

(** [load_config] succeeds iff KONNECT_TOKEN, DATAPLANE_URL and
    DRATA_API_KEY are all set; otherwise it raises [KeyError] naming the
    first of them (in that order) that is missing. The required values
    are taken from the environment as they are. *)
Theorem load_config_required_vars (env : Env) :
  match first_missing env with
  | Some k => load_config env = PRaise (key_error k)
  | None => exists cfg, load_config env = POk cfg
              /\ env_lookup env "KONNECT_TOKEN" = Some (konnect_token (kong cfg))
              /\ env_lookup env "DATAPLANE_URL" = Some (dataplane_url (kong cfg))
              /\ env_lookup env "DRATA_API_KEY" = Some (api_key (drata cfg))
  end.
Proof.
  unfold first_missing, load_config, KongConfig_from_env, DrataConfig_from_env, environ.
  simpl find.
  destruct (env_lookup env "KONNECT_TOKEN") as [t|]; [|reflexivity].
  destruct (env_lookup env "DATAPLANE_URL") as [u|]; [|reflexivity].
  destruct (env_lookup env "DRATA_API_KEY") as [a|]; [|reflexivity].
  eexists. split; [reflexivity|]. repeat split.
Qed.

(* ------------------------------------------------------------------ *)

(** [n] slashes. *)
Fixpoint slashes (n : nat) : string :=
  match n with O => "" | S m => String "/" (slashes m) end.

Lemma list_ascii_of_string_app (a b : string) :
  list_ascii_of_string (a ++ b) = app (list_ascii_of_string a) (list_ascii_of_string b).
Proof. induction a as [|c a IH]; simpl; [reflexivity | rewrite IH; reflexivity]. Qed.

Lemma list_ascii_of_slashes (n : nat) : list_ascii_of_string (slashes n) = repeat "/"%char n.
Proof. induction n as [|n IH]; simpl; [reflexivity | rewrite IH; reflexivity]. Qed.

Lemma rev_repeat {A} (x : A) (n : nat) : rev (repeat x n) = repeat x n.
Proof.
  induction n as [|n IH]; [reflexivity|].
  simpl rev. rewrite IH. clear IH.
  induction n as [|n IH]; simpl; [reflexivity | rewrite IH; reflexivity].
Qed.

Lemma drop_slashes_repeat (n : nat) (l : list ascii) :
  drop_slashes (app (repeat "/"%char n) l) = drop_slashes l.
Proof. induction n as [|n IH]; simpl; [reflexivity | exact IH]. Qed.

Lemma drop_slashes_head (l : list ascii) :
  match drop_slashes l with c :: _ => c <> "/"%char | [] => True end.
Proof.
  induction l as [|c l IH]; simpl; [exact I|].
  destruct (Ascii.eqb_spec c "/"%char) as [Hc|Hc]; [exact IH | exact Hc].
Qed.

Lemma drop_slashes_idem (l : list ascii) : drop_slashes (drop_slashes l) = drop_slashes l.
Proof.
  pose proof (drop_slashes_head l) as H.
  destruct (drop_slashes l) as [|c r]; simpl; [reflexivity|].
  destruct (Ascii.eqb_spec c "/"%char); [contradiction | reflexivity].
Qed.

(** [rstrip("/")] on the client base URLs: however many slashes the
    configured URL ends with, the request URLs are the same; the stored
    base never ends with a slash; stripping again changes nothing. *)
Theorem request_url_trailing_slashes (base path : string) (n : nat) :
  request_url (base ++ slashes n) path = request_url base path
  /\ (forall s, rstrip_slash base <> s ++ "/")
  /\ rstrip_slash (rstrip_slash base) = rstrip_slash base.
Proof.
  unfold request_url, rstrip_slash. split; [|split].
  - rewrite list_ascii_of_string_app, list_ascii_of_slashes, rev_app_distr, rev_repeat,
      drop_slashes_repeat. reflexivity.
  - intros s Hs.
    apply (f_equal list_ascii_of_string) in Hs.
    rewrite list_ascii_of_string_of_list_ascii, list_ascii_of_string_app in Hs.
    apply (f_equal (@rev ascii)) in Hs. rewrite rev_involutive, rev_app_distr in Hs.
    pose proof (drop_slashes_head (rev (list_ascii_of_string base))) as H.
    rewrite Hs in H. simpl in H. apply H. reflexivity.
  - rewrite list_ascii_of_string_of_list_ascii, rev_involutive, drop_slashes_idem. reflexivity.
Qed.

(* ------------------------------------------------------------------ *)

(** The status [test_rate_limit] records for one request. *)
Definition status_or_zero (r : PyResult Response) : Z :=
  match r with POk resp => status_code resp | PRaise _ => 0%Z end.

Lemma rate_limit_seq (dp : Dataplane) (key path : string) (s n : nat) :
  (forall i e, (s <= i < s + n)%nat -> dp_get dp i path (Some key) = PRaise e -> is_exception e = true) ->
  py_mapM (fun i => match dp_get dp i path (Some key) with
                    | POk r => POk (status_code r)
                    | PRaise e => if is_exception e then POk 0%Z else PRaise e
                    end) (seq s n)
  = POk (map (fun i => status_or_zero (dp_get dp i path (Some key))) (seq s n)).
Proof.
  intros Hexc. apply py_mapM_map. intros i Hi. apply in_seq in Hi.
  unfold status_or_zero. destruct (dp_get dp i path (Some key)) as [r|e] eqn:He; [reflexivity|].
  rewrite (Hexc i e Hi He). reflexivity.
Qed.

Lemma rate_limit_raise (dp : Dataplane) (key path : string) (l : list nat) (e : PyExc) :
  py_mapM (fun i => match dp_get dp i path (Some key) with
                    | POk r => POk (status_code r)
                    | PRaise e => if is_exception e then POk 0%Z else PRaise e
                    end) l = PRaise e -> is_exception e = false.
Proof.
  induction l as [|i l IH]; simpl; [discriminate|].
  destruct (dp_get dp i path (Some key)) as [r|e'] eqn:Hd; simpl.
  - destruct (py_mapM _ l); simpl; [discriminate | exact IH].
  - destruct (is_exception e') eqn:Hx; simpl.
    + destruct (py_mapM _ l); simpl; [discriminate | exact IH].
    + intros H. injection H as <-. exact Hx.
Qed.

(** [DataplaneClient.test_rate_limit] only ever lets a non-[Exception]
    (an interrupt) escape; when every request either answers or fails
    with an [Exception], it returns exactly one status per request, in
    request order, with 0 for each request that failed. *)
Theorem test_rate_limit_statuses (dp : Dataplane) (key path : string) (n : nat) :
  (forall e, test_rate_limit dp key path n = PRaise e -> is_exception e = false)
  /\ ((forall i e, (i < n)%nat -> dp_get dp i path (Some key) = PRaise e -> is_exception e = true) ->
      exists codes, test_rate_limit dp key path n = POk codes
        /\ length codes = n
        /\ forall i, (i < n)%nat -> nth i codes 0%Z = status_or_zero (dp_get dp i path (Some key))).
Proof.
  split; [intros e; apply rate_limit_raise|].
  intros Hexc. unfold test_rate_limit.
  rewrite (rate_limit_seq dp key path 0 n) by (intros i e Hi; apply Hexc; lia).
  eexists. split; [reflexivity|]. split.
  - rewrite length_map, length_seq. reflexivity.
  - intros i Hi.
    rewrite (nth_indep _ 0%Z ((fun j => status_or_zero (dp_get dp j path (Some key))) 0%nat))
      by (rewrite length_map, length_seq; exact Hi).
    rewrite (map_nth (fun j => status_or_zero (dp_get dp j path (Some key)))), seq_nth by exact Hi.
    reflexivity.
Qed.

(* ------------------------------------------------------------------ *)

Lemma count_eq_all (z : Z) (l : list Z) :
  count_eq z l = Z.of_nat (length l) <-> Forall (eq z) l.
Proof.
  unfold count_eq. rewrite Nat2Z.inj_iff.
  induction l as [|x l IH]; simpl; [split; auto|].
  pose proof (filter_length_le (fun r => Z.eqb r z) l) as Hle.
  destruct (Z.eqb_spec x z) as [Hx|Hx]; simpl.
  - split; intros H.
    + constructor; [congruence | apply IH; lia].
    + inversion H; subst. f_equal. apply IH. assumption.
  - split; intros H; [lia | inversion H; congruence].
Qed.

(** A gateway that answers every request with 200. *)
Definition dp_all_ok : Dataplane := fun _ _ _ => POk (mkResponse 200 [] None).

(** The pro-tier check PASSes exactly when all ten statuses of its burst
    are 200; a single other status (429, or 0 for a failed request)
    makes it FAIL. *)
Theorem pro_tier_all_200 (dp : Dataplane) (key : string) (codes : list Z)
  (H : test_rate_limit dp key "/api/hello" 10 = POk codes) :
  exists r d a, RT002_execute dp key = POk (r, d, a)
    /\ (r = PASS <-> Forall (eq 200%Z) codes)
    /\ (r = FAIL <-> Exists (fun c => c <> 200%Z) codes).
Proof.
  pose proof (py_mapM_length _ _ _ H) as Hl. rewrite length_seq in Hl.
  unfold RT002_execute. rewrite H. cbn [pybind].
  do 3 eexists. split; [reflexivity|].
  assert (Hx : Exists (fun c => c <> 200%Z) codes <-> ~ Forall (eq 200%Z) codes).
  { split.
    - intros HE HF. rewrite Exists_exists in HE. destruct HE as [c [Hc Hn]].
      rewrite Forall_forall in HF. apply Hn. symmetry. apply HF. exact Hc.
    - intros HF.
      assert (HE : Exists (fun c => ~ 200%Z = c) codes)
        by (apply neg_Forall_Exists_neg; [intros c; apply Z.eq_dec | exact HF]).
      revert HE. apply Exists_impl. intros c Hc. congruence. }
  rewrite Hx, <- count_eq_all, Hl.
  destruct (Z.eqb_spec (count_eq 200 codes) (Z.of_nat 10)) as [He|He]; simpl;
    intuition congruence.
Qed.

Lemma pro_tier_all_200_witness :
  test_rate_limit dp_all_ok "pro-key" "/api/hello" 10
    = POk [200; 200; 200; 200; 200; 200; 200; 200; 200; 200]%Z
  /\ exists d a, RT002_execute dp_all_ok "pro-key" = POk (PASS, d, a).
Proof.
  assert (H : test_rate_limit dp_all_ok "pro-key" "/api/hello" 10
    = POk [200; 200; 200; 200; 200; 200; 200; 200; 200; 200]%Z) by reflexivity.
  split; [exact H|].
  destruct (pro_tier_all_200 _ _ _ H) as [r [d [a [Hx [Hp _]]]]].
  exists d, a. rewrite Hx. f_equal. f_equal. f_equal. apply Hp. repeat constructor.
Defined.

(* ------------------------------------------------------------------ *)

(** The key-rejection checks: RT-004 sends its request with no
    [X-API-Key] header and RT-003 with the fixed invalid key (their
    outcome depends on the gateway's answer to that request alone), and
    each PASSes exactly when that answer has status 401, so a 403 or a
    200 FAILs. *)
Theorem key_rejection_checks (dp : Dataplane) :
  (forall dp', dp' 0%nat "/api/hello" None = dp 0%nat "/api/hello" None ->
               RT004_execute dp' = RT004_execute dp)
  /\ (forall dp', dp' 0%nat "/api/hello" (Some "invalid-key-12345")
                  = dp 0%nat "/api/hello" (Some "invalid-key-12345") ->
               RT003_execute dp' = RT003_execute dp)
  /\ (forall r, dp 0%nat "/api/hello" None = POk r ->
        exists d a, RT004_execute dp = POk (if Z.eqb (status_code r) 401 then PASS else FAIL, d, a))
  /\ (forall r, dp 0%nat "/api/hello" (Some "invalid-key-12345") = POk r ->
        exists d a, RT003_execute dp = POk (if Z.eqb (status_code r) 401 then PASS else FAIL, d, a)).
Proof.
  unfold RT003_execute, RT004_execute, key_rejected_execute, dp_get. cbn [api_key_header String.eqb].
  repeat split.
  - intros dp' H. rewrite H. reflexivity.
  - intros dp' H. rewrite H. reflexivity.
  - intros r H. rewrite H. do 2 eexists. reflexivity.
  - intros r H. rewrite H. do 2 eexists. reflexivity.
Qed.

(* ------------------------------------------------------------------ *)

(** The valid-key check: PASS exactly when the health endpoint answers
    200; a health request that fails with an [Exception] gives FAIL
    with actual status 0 (not ERROR); an empty key is sent as no key. *)
Theorem valid_key_check (dp : Dataplane) (key : string) :
  (forall r, dp 0%nat "/api/health" (api_key_header (Some key)) = POk r ->
     exists d a, RT005_execute dp key = POk (if Z.eqb (status_code r) 200 then PASS else FAIL, d, a))
  /\ (forall e, dp 0%nat "/api/health" (api_key_header (Some key)) = PRaise e -> is_exception e = true ->
     exists d a, RT005_execute dp key = POk (FAIL, d, a) /\ json_field d "actual_status" = Some (JInt 0))
  /\ api_key_header (Some "") = None.
Proof.
  unfold RT005_execute, health_check, dp_get. split; [|split].
  - intros r H. rewrite H. cbn [pybind]. do 2 eexists. reflexivity.
  - intros e H Hx. rewrite H, Hx. cbn [pybind]. do 2 eexists. split; reflexivity.
  - reflexivity.
Qed.

(* ------------------------------------------------------------------ *)

Lemma parse_plugin_name (item : json) (p : KongPlugin) :
  parse_plugin item = POk p -> py_index item "name" = POk (p_name p).
Proof.
  unfold parse_plugin. intros H.
  apply pybind_ok in H. destruct H as [id [_ H]].
  apply pybind_ok in H. destruct H as [name [Hn H]].
  repeat (apply pybind_ok in H; destruct H as [? [_ H]]).
  injection H as <-. exact Hn.
Qed.

Lemma collect_plugins_named (n : string) (items : list json) (ps : list KongPlugin) :
  n <> "" -> collect_plugins (Some n) items = POk ps -> Forall (fun p => p_name p = JStr n) ps.
Proof.
  intros Hn. revert ps. induction items as [|item items IH]; simpl; intros ps H.
  - injection H as <-. constructor.
  - destruct (String.eqb_spec n "") as [He|_]; [contradiction|].
    apply pybind_ok in H. destruct H as [skip [Hs H]].
    apply pybind_ok in Hs. destruct Hs as [nm [Hnm Hs]]. injection Hs as <-.
    destruct (eq_str nm n) eqn:Heq; simpl in H; [|exact (IH _ H)].
    apply pybind_ok in H. destruct H as [p [Hp H]].
    apply pybind_ok in H. destruct H as [ps' [Hps H]]. injection H as <-.
    constructor; [|exact (IH _ Hps)].
    apply parse_plugin_name in Hp.
    destruct item as [| | | | | |kvs]; try discriminate Hnm.
    cbn [py_get] in Hnm. cbn [py_index] in Hp.
    destruct (dict_lookup kvs "name") as [v|]; injection Hnm as <-; [|discriminate Heq].
    injection Hp as <-. destruct v; try discriminate Heq.
    simpl in Heq. apply String.eqb_eq in Heq. subst. reflexivity.
Qed.

Lemma collect_plugins_all (items : list json) (ps : list KongPlugin) :
  collect_plugins None items = POk ps -> length ps = length items.
Proof.
  revert ps. induction items as [|item items IH]; simpl; intros ps H.
  - injection H as <-. reflexivity.
  - apply pybind_ok in H. destruct H as [p [_ H]].
    apply pybind_ok in H. destruct H as [ps' [Hps H]]. injection H as <-.
    simpl. f_equal. exact (IH _ Hps).
Qed.

Lemma collect_plugins_empty_name (items : list json) :
  collect_plugins (Some "") items = collect_plugins None items.
Proof. induction items as [|item items IH]; simpl; [reflexivity | rewrite IH; reflexivity]. Qed.

(** [KonnectClient.get_plugins] with a plugin name returns only plugins
    of that name; without one (or with the empty name, which is falsy)
    it returns one plugin per listed item. *)
Theorem get_plugins_name_filter (admin : Admin) (n : string) (ps : list KongPlugin)
  (Hn : n <> "") (H : get_plugins admin (Some n) = POk ps) :
  Forall (fun p => p_name p = JStr n) ps
  /\ get_plugins admin (Some "") = get_plugins admin None
  /\ (forall resp items ps', admin "/plugins" = POk resp ->
        py_get resp "data" (JList []) = POk (JList items) ->
        get_plugins admin None = POk ps' -> length ps' = length items).
Proof.
  split; [|split].
  - unfold get_plugins in H.
    apply pybind_ok in H. destruct H as [resp [_ H]].
    apply pybind_ok in H. destruct H as [data [_ H]].
    apply pybind_ok in H. destruct H as [items [_ H]].
    exact (collect_plugins_named n items ps Hn H).
  - unfold get_plugins. destruct (admin "/plugins"); simpl; [|reflexivity].
    destruct (py_get a "data" (JList [])); simpl; [|reflexivity].
    destruct (py_iter a0); simpl; [apply collect_plugins_empty_name | reflexivity].
  - intros resp items ps' Ha Hd Hg. unfold get_plugins in Hg.
    rewrite Ha in Hg. cbn [pybind] in Hg. rewrite Hd in Hg. cbn [pybind py_iter] in Hg.
    exact (collect_plugins_all _ _ Hg).
Qed.

(** An admin API listing one key-auth plugin and one other plugin. *)
Definition admin_mixed : Admin := fun _ =>
  POk (JObj [("data", JList [JObj [("id", JStr "p-1"); ("name", JStr "key-auth")];
                             JObj [("id", JStr "p-2"); ("name", JStr "cors")]])]).

Lemma get_plugins_name_filter_witness :
  exists ps, get_plugins admin_mixed (Some "key-auth") = POk ps
    /\ Forall (fun p => p_name p = JStr "key-auth") ps.
Proof.
  assert (H : get_plugins admin_mixed (Some "key-auth")
    = POk [mkPlugin (JStr "p-1") (JStr "key-auth") (JBool true) (JObj []) JNull JNull JNull])
    by (vm_compute; reflexivity).
  eexists. split; [exact H|].
  apply (get_plugins_name_filter admin_mixed "key-auth" _ ltac:(discriminate) H).
Defined.

(* ------------------------------------------------------------------ *)

Lemma length_filter_pos {A} (f : A -> bool) (l : list A) :
  negb (Nat.eqb (length (filter f l)) 0) = true <-> Exists (fun x => f x = true) l.
Proof.
  induction l as [|x l IH]; simpl.
  - split; [discriminate | intros H; inversion H].
  - destruct (f x) eqn:Hx; simpl.
    + split; [intros _; left; exact Hx | reflexivity].
    + rewrite IH. split; [intros H; right; exact H|].
      intros H; inversion H; [congruence | assumption].
Qed.

(** The key-auth check PASSes exactly when some listed key-auth plugin
    has a truthy [enabled] field, and otherwise FAILs; it never ERRORs
    on a listing [get_plugins] accepted. *)
Theorem auth_plugin_check (admin : Admin) (ps : list KongPlugin)
  (H : get_plugins admin (Some "key-auth") = POk ps) :
  exists r d a, CF001_execute admin = POk (r, d, a)
    /\ (r = PASS <-> Exists (fun p => truthy (p_enabled p) = true) ps)
    /\ (r = PASS \/ r = FAIL).
Proof.
  unfold CF001_execute. rewrite H. cbn [pybind].
  do 3 eexists. split; [reflexivity|].
  rewrite <- length_filter_pos.
  destruct (negb _); simpl; intuition congruence.
Qed.

Lemma auth_plugin_check_witness :
  exists d a, CF001_execute admin_mixed = POk (PASS, d, a).
Proof.
  assert (H : get_plugins admin_mixed (Some "key-auth")
    = POk [mkPlugin (JStr "p-1") (JStr "key-auth") (JBool true) (JObj []) JNull JNull JNull])
    by (vm_compute; reflexivity).
  destruct (auth_plugin_check _ _ H) as [r [d [a [Hx [Hp _]]]]].
  exists d, a. rewrite Hx. do 3 f_equal. apply Hp. left. reflexivity.
Defined.

(* ------------------------------------------------------------------ *)






(* ------------------------------------------------------------------ *)

(** What [get_consumers] records for one listed consumer object. *)
Definition consumer_of_item (item : json) (c : KongConsumer) : Prop :=
  json_field item "id" = Some (c_id c)
  /\ (json_field item "username" = None -> c_username c = JStr "")
  /\ (json_field item "custom_id" = None -> c_custom_id c = JNull)
  /\ (json_field item "created_at" = None -> c_created_at c = JInt 0).

(** [KonnectClient.get_consumers] on a listing of consumer objects: when
    every object has an [id] it returns one consumer per object, in
    order, with [""], [None] and [0] for a missing username, custom_id
    and created_at; an object without [id] makes the whole listing raise
    [KeyError('id')]. *)
Theorem get_consumers_items (admin : Admin) (items : list json)
  (H : admin "/consumers" = POk (JObj [("data", JList items)])) :
  (Forall (fun it => exists kvs v, it = JObj kvs /\ dict_lookup kvs "id" = Some v) items ->
     exists cs, get_consumers admin = POk cs /\ Forall2 consumer_of_item items cs)
  /\ (Forall (fun it => exists kvs, it = JObj kvs) items ->
      Exists (fun it => json_field it "id" = None) items ->
      get_consumers admin = PRaise (key_error "id")).
Proof.
  unfold get_consumers. rewrite H. cbn [pybind py_get dict_lookup fold_left String.eqb py_iter].
  simpl. split.
  - clear H. intros HA. induction HA as [|it items [kvs [v [-> Hv]]] _ [cs [Hcs HF]]].
    { exists []. split; [reflexivity | apply Forall2_nil]. }
    simpl. unfold parse_consumer at 1. cbn [py_index py_get]. rewrite Hv. cbn [pybind].
    rewrite Hcs. cbn [pybind]. eexists. split; [reflexivity|]. constructor; [|exact HF].
    unfold consumer_of_item. simpl. split; [exact Hv|].
    split; [intros Hn; rewrite Hn; reflexivity|].
    split; intros Hn; rewrite Hn; reflexivity.
  - clear H. intros HA. induction HA as [|it items [kvs ->] _ IH]; intros HE; [inversion HE|].
    simpl. unfold parse_consumer at 1. cbn [py_index py_get].
    destruct (dict_lookup kvs "id") as [v|] eqn:Hv; cbn [pybind].
    + inversion HE as [? ? Hn|? ? Hr]; subst; [simpl in Hn; congruence|].
      rewrite (IH Hr). reflexivity.
    + reflexivity.
Qed.

(** An admin API listing one consumer without [id]. *)
Definition admin_idless_consumer : Admin := fun _ =>
  POk (JObj [("data", JList [JObj [("username", JStr "gold")]])]).

Lemma get_consumers_items_witness :
  get_consumers admin_idless_consumer = PRaise (key_error "id").
Proof.
  apply (proj2 (get_consumers_items admin_idless_consumer _ eq_refl)).
  - repeat constructor. eexists. reflexivity.
  - constructor. reflexivity.
Defined.

(* ------------------------------------------------------------------ *)

Lemma length_filter_split {A} (f : A -> bool) (l : list A) :
  (length (filter f l) + length (filter (fun x => negb (f x)) l))%nat = length l.
Proof. induction l as [|x l IH]; simpl; [reflexivity|]. destruct (f x); simpl; lia. Qed.

(** In the consumer-coverage check, the covered consumers and the
    usernames listed in [missing_limits] together account for every
    consumer: [consumers_with_limits] + [len(missing_limits)] =
    [total_consumers]. *)
Theorem coverage_counts (consumers : list KongConsumer) (plugins : list KongPlugin)
  (r : TestResult) (d : json) (a : list EvidenceArtifact)
  (H : CF003_execute_on consumers plugins = POk (r, d, a)) :
  exists covered missing,
    json_field d "total_consumers" = Some (JInt (Z.of_nat (length consumers)))
    /\ json_field d "consumers_with_limits" = Some (JInt (Z.of_nat covered))
    /\ json_field d "missing_limits" = Some (JList missing)
    /\ (covered + length missing)%nat = length consumers.
Proof.
  unfold CF003_execute_on in H.
  apply pybind_ok in H. destruct H as [wl [_ H]].
  apply pybind_ok in H. destruct H as [entries [He H]].
  injection H as _ <- _.
  pose proof (py_mapM_length _ _ _ He) as Hl.
  do 2 eexists. split; [reflexivity|]. split; [reflexivity|]. split; [reflexivity|].
  rewrite length_map, <- Hl. apply length_filter_split.
Qed.

Definition consumer_bronze : KongConsumer :=
  mkConsumer (JStr "c-2") (JStr "bronze") (JStr "tier_free") (JInt 0).

Lemma coverage_counts_witness :
  exists r d a, CF003_execute_on [consumer_bronze] [] = POk (r, d, a)
    /\ json_field d "missing_limits" = Some (JList [JStr "bronze"]).
Proof.
  destruct (CF003_execute_on [consumer_bronze] []) as [[[r d] a]|e] eqn:H;
    [|vm_compute in H; discriminate H].
  exists r, d, a. split; [reflexivity|].
  destruct (coverage_counts _ _ _ _ _ H) as [cov [miss [_ [_ [Hm _]]]]].
  vm_compute in H. injection H as _ <- _. reflexivity.
Defined.

(* ------------------------------------------------------------------ *)

(* ------------------------------------------------------------------ *)

(** The console line [push_to_drata] prints for one record in live mode. *)
Definition push_line (e : Evidence) (line : string) : Prop :=
  line = "Pushed " ++ test_id e
  \/ exists msg, line = "Failed to push " ++ test_id e ++ ": " ++ msg.

(** In live mode [push_to_drata] submits every record once, in order, to
    the monitor [kong-<lower-cased test id>], whatever the platform
    answers: a submission failing with an [Exception] is reported on its
    line and the loop goes on with the next record. *)
Theorem push_live_submits_all (results : list Evidence)
  (respond : string -> json -> PyResult json) (sent : list (string * json))
  (Hexc : forall m p e, respond m p = PRaise e -> is_exception e = true) :
  exists lines,
    push_to_drata results (DrataLive respond sent) false
      = POk (DrataLive respond
               (app sent (map (fun e => (monitor_id_of e, to_dict (payload_of e))) results)), lines)
    /\ Forall2 push_line results lines.
Proof.
  revert sent. induction results as [|ev rest IH]; intros sent; simpl.
  - exists []. rewrite app_nil_r. split; [reflexivity | constructor].
  - destruct (respond (monitor_id_of ev) (to_dict (payload_of ev))) as [j|e] eqn:Hr.
    + cbn [pybind fst snd]. destruct (IH (app sent [(monitor_id_of ev, to_dict (payload_of ev))]))
        as [lines [Hp HF]].
      rewrite Hp, <- app_assoc. cbn [pybind fst snd].
      eexists. split; [reflexivity|]. constructor; [left; reflexivity | exact HF].
    + rewrite (Hexc _ _ _ Hr). cbn [pybind fst snd].
      destruct (IH (app sent [(monitor_id_of ev, to_dict (payload_of ev))])) as [lines [Hp HF]].
      rewrite Hp, <- app_assoc. cbn [pybind fst snd].
      eexists. split; [reflexivity|]. constructor; [right; eexists; reflexivity | exact HF].
Qed.

(** A platform that rejects every submission with an HTTP error. *)
Definition rejecting_platform : string -> json -> PyResult json :=
  fun _ _ => PRaise (mkExc ExcException "HTTPError: 500 Server Error").

Definition evidence_sample (id : string) : Evidence :=
  mkEvidence id "sample" "2026-01-01T00:00:00+00:00" "PASS" ["CC6.1"] 12 (JObj []) [] None.

Lemma push_live_submits_all_witness :
  exists lines,
    push_to_drata [evidence_sample "RT-001"; evidence_sample "RT-002"]
                  (DrataLive rejecting_platform []) false
      = POk (DrataLive rejecting_platform
               [("kong-rt-001", to_dict (payload_of (evidence_sample "RT-001")));
                ("kong-rt-002", to_dict (payload_of (evidence_sample "RT-002")))], lines)
    /\ Forall2 push_line [evidence_sample "RT-001"; evidence_sample "RT-002"] lines.
Proof.
  apply (push_live_submits_all [evidence_sample "RT-001"; evidence_sample "RT-002"]
           rejecting_platform []).
  intros m p e H. injection H as <-. reflexivity.
Defined.

(* ------------------------------------------------------------------ *)

Lemma control_plane_calls_cached (name : string) (fs : list (PyResult json)) (cache : json) :
  truthy cache = true -> control_plane_calls fs name cache = (map (fun _ => POk cache) fs, cache).
Proof.
  intros Ht. induction fs as [|f fs IH]; simpl; [reflexivity|].
  unfold get_control_plane_id at 1. rewrite Ht. rewrite IH. reflexivity.
Qed.

(** Over successive calls on one client, the control-plane id sticks
    once it is truthy: every later call returns it without a request,
    whatever the API would answer by then (a renamed or deleted control
    plane included). Until then every call makes a fresh lookup: after
    a failed lookup or a falsy id (such as [""]), the next call returns
    what the next lookup gives. *)
Theorem control_plane_id_sticky (name : string) :
  (forall fs cache, truthy cache = true ->
     control_plane_calls fs name cache = (map (fun _ => POk cache) fs, cache))
  /\ (forall f fs cache id, truthy cache = false -> fetch_control_plane_id f name = POk id ->
      truthy id = true ->
      control_plane_calls (f :: fs) name cache = (POk id :: map (fun _ => POk id) fs, id))
  /\ (forall f1 f2 fs cache, truthy cache = false ->
      (forall id, fetch_control_plane_id f1 name = POk id -> truthy id = false) ->
      nth_error (fst (control_plane_calls (f1 :: f2 :: fs) name cache)) 1
        = Some (fetch_control_plane_id f2 name)).
Proof.
  split; [|split].
  - intros fs cache Ht. apply control_plane_calls_cached. exact Ht.
  - intros f fs cache id Hf Hid Ht. simpl. unfold get_control_plane_id at 1.
    rewrite Hf, Hid. rewrite (control_plane_calls_cached name fs id Ht). reflexivity.
  - intros f1 f2 fs cache Hf H1. simpl. unfold get_control_plane_id at 1. rewrite Hf.
    destruct (fetch_control_plane_id f1 name) as [id|e] eqn:He.
    + unfold get_control_plane_id. rewrite (H1 id eq_refl).
      destruct (fetch_control_plane_id f2 name);
        destruct (control_plane_calls fs name _); reflexivity.
    + unfold get_control_plane_id. rewrite Hf.
      destruct (fetch_control_plane_id f2 name);
        destruct (control_plane_calls fs name _); reflexivity.
Qed.

Lemma eq_str_JStr (v : json) (s : string) : eq_str v s = true -> v = JStr s.
Proof. destruct v; simpl; try discriminate. intros H. apply String.eqb_eq in H. subst. reflexivity. Qed.

(** A control-plane object whose name is not [name]. *)
Definition other_plane (name : string) (cp : json) : Prop :=
  exists kvs, cp = JObj kvs /\ dict_lookup kvs "name" <> Some (JStr name).

Lemma find_control_plane_skip (name : string) (pre rest : list json) :
  Forall (other_plane name) pre ->
  find_control_plane name (app pre rest) = find_control_plane name rest.
Proof.
  induction 1 as [|cp pre [kvs [-> Hn]] _ IH]; [reflexivity|].
  simpl. destruct (dict_lookup kvs "name") as [v|] eqn:Hv; simpl.
  - destruct (eq_str v name) eqn:He; [apply eq_str_JStr in He; congruence | exact IH].
  - exact IH.
Qed.

(** The lookup picks the first control plane carrying the configured
    name; when none does it raises [ValueError]. *)
Theorem control_plane_lookup (name : string) :
  (forall pre kvs id rest,
     Forall (other_plane name) pre ->
     dict_lookup kvs "name" = Some (JStr name) -> dict_lookup kvs "id" = Some id ->
     find_control_plane name (app pre (JObj kvs :: rest)) = POk id)
  /\ (forall cps, Forall (other_plane name) cps ->
     find_control_plane name cps
       = PRaise (value_error ("Control plane '" ++ name ++ "' not found"))).
Proof.
  split.
  - intros pre kvs id rest Hpre Hn Hi. rewrite (find_control_plane_skip name pre _ Hpre).
    simpl. rewrite Hn. simpl. rewrite String.eqb_refl. simpl. rewrite Hi. reflexivity.
  - intros cps Hc. rewrite <- (app_nil_r cps). rewrite (find_control_plane_skip name cps [] Hc).
    reflexivity.
Qed.

(* ------------------------------------------------------------------ *)

Lemma substring0_length (n : nat) (s : string) :
  String.length (substring 0 n s) = Nat.min n (String.length s).
Proof.
  revert s. induction n as [|n IH]; intros s; [destruct s; reflexivity|].
  destruct s as [|c s]; simpl; [reflexivity | rewrite IH; reflexivity].
Qed.

Lemma string_length_append (a b : string) :
  String.length (a ++ b) = (String.length a + String.length b)%nat.
Proof. induction a as [|c a IH]; simpl; [reflexivity | rewrite IH; reflexivity]. Qed.

Lemma substring0_prefix (n : nat) (s : string) : prefix (substring 0 n s) s = true.
Proof.
  revert s. induction n as [|n IH]; intros s; [destruct s; reflexivity|].
  destruct s as [|c s]; simpl; [reflexivity|].
  destruct (ascii_dec c c) as [_|Hc]; [apply IH | contradiction Hc; reflexivity].
Qed.

(** The summary table's cells: a test name of at most 40 characters is
    shown as it is, a longer one as its first 40 characters followed by
    "...", so the cell never exceeds 43 characters; the controls cell
    lists at most the first three controls; a result other than the
    four [TestResult] values is styled "white". *)
Theorem print_summary_cells (test_name : string) (control_mapping : list string) (r : string) :
  ((String.length test_name <= 40)%nat -> name_cell test_name = test_name)
  /\ ((40 < String.length test_name)%nat ->
      name_cell test_name = substring 0 40 test_name ++ "..."
      /\ prefix (substring 0 40 test_name) test_name = true
      /\ String.length (name_cell test_name) = 43%nat)
  /\ (String.length (name_cell test_name) <= 43)%nat
  /\ controls_cell control_mapping = controls_cell (firstn 3 control_mapping)
  /\ (result_style r = "white" <-> ~ In r ["PASS"; "FAIL"; "ERROR"; "SKIP"]).
Proof.
  unfold name_cell. split; [|split; [|split; [|split]]].
  - intros Hl. destruct (Nat.ltb_spec 40 (String.length test_name)); [lia | reflexivity].
  - intros Hl. destruct (Nat.ltb_spec 40 (String.length test_name)) as [_|Hn]; [|lia].
    split; [reflexivity|]. split; [apply substring0_prefix|].
    rewrite string_length_append, substring0_length, Nat.min_l by lia. reflexivity.
  - destruct (Nat.ltb_spec 40 (String.length test_name)) as [Hl|Hn].
    + rewrite string_length_append, substring0_length, Nat.min_l by lia. constructor.
    + lia.
  - unfold controls_cell. rewrite firstn_firstn. reflexivity.
  - unfold result_style.
    destruct (String.eqb_spec r "PASS"); [subst; simpl; intuition discriminate|].
    destruct (String.eqb_spec r "FAIL"); [subst; simpl; intuition discriminate|].
    destruct (String.eqb_spec r "ERROR"); [subst; simpl; intuition discriminate|].
    destruct (String.eqb_spec r "SKIP"); [subst; simpl; intuition discriminate|].
    simpl. split; [intros _ [?|[?|[?|[?|[]]]]]; congruence | reflexivity].
Qed.

(* ------------------------------------------------------------------ *)

(** The test ids of the suite [create_tests] builds. *)
Definition suite_ids : list string :=
  ["RT-001"; "RT-002"; "RT-003"; "RT-004"; "RT-005"; "RT-006"; "CF-001"; "CF-002"; "CF-003"].

Lemma run_tests_meta (tests : list (BaseTest * Clock)) (evs : list Evidence) :
  run_tests tests = POk evs ->
  map test_id evs = map (fun tc => bt_test_id (fst tc)) tests
  /\ map control_mapping evs = map (fun tc => bt_control_mapping (fst tc)) tests.
Proof.
  unfold run_tests. revert evs. induction tests as [|[t c] tests IH]; simpl; intros evs H.
  - injection H as <-. split; reflexivity.
  - apply pybind_ok in H. destruct H as [ev [Hev H]].
    apply pybind_ok in H. destruct H as [evs' [Hevs H]]. injection H as <-.
    destruct (IH _ Hevs) as [Hi Hc].
    assert (Hm : test_id ev = bt_test_id t /\ control_mapping ev = bt_control_mapping t).
    { unfold run in Hev. destruct (bt_execute t) as [[[r d] arts]|e].
      - injection Hev as <-. split; reflexivity.
      - destruct (is_exception e); [injection Hev as <-; split; reflexivity | discriminate Hev]. }
    destruct Hm as [H1 H2]. simpl. rewrite H1, H2, Hi, Hc. split; reflexivity.
Qed.

(** [run_tests] on the suite keeps the tests' order and ids: the records
    carry the nine test ids in order, and their Drata monitor ids
    [kong-<lower-cased id>] are pairwise distinct, so no two records of
    a run are pushed to the same monitor. *)
Theorem suite_monitor_ids_distinct (free_trial_key pro_key : string) (dps : nat -> Dataplane)
  (admin : Admin) (clocks : list Clock) (evs : list Evidence)
  (Hc : length clocks = 9%nat)
  (H : run_tests (combine (create_tests free_trial_key pro_key dps admin) clocks) = POk evs) :
  map test_id evs = suite_ids
  /\ map monitor_id_of evs = map (fun id => "kong-" ++ lower id) suite_ids
  /\ NoDup (map monitor_id_of evs).
Proof.
  destruct (run_tests_meta _ _ H) as [Hi _].
  assert (Hids : map test_id evs = suite_ids).
  { rewrite Hi.
    do 9 (destruct clocks as [|? clocks]; [discriminate Hc|]).
    destruct clocks; [reflexivity | discriminate Hc]. }
  assert (Hm : map monitor_id_of evs = map (fun id => "kong-" ++ lower id) suite_ids).
  { rewrite <- Hids, map_map. reflexivity. }
  split; [exact Hids|]. split; [exact Hm|].
  rewrite Hm. vm_compute.
  repeat constructor; simpl; intros Hin; repeat destruct Hin as [Hin|Hin]; try discriminate Hin;
    exact Hin.
Qed.

Definition clock_sample : Clock := mkClock "2026-01-01T00:00:00+00:00" 0 1.

Lemma suite_monitor_ids_distinct_witness :
  exists evs, run_tests (combine (create_tests "free-trial-key" "pro-key" (fun _ => dp_all_ok) admin_mixed)
                                 (repeat clock_sample 9)) = POk evs
              /\ NoDup (map monitor_id_of evs).
Proof.
  destruct (run_tests (combine (create_tests "free-trial-key" "pro-key" (fun _ => dp_all_ok) admin_mixed)
                               (repeat clock_sample 9))) as [evs|e] eqn:H;
    [|vm_compute in H; discriminate H].
  exists evs. split; [reflexivity|].
  exact (proj2 (proj2 (suite_monitor_ids_distinct _ _ _ _ (repeat clock_sample 9) _ eq_refl H))).
Defined.

(* ------------------------------------------------------------------ *)

Lemma map_JStr_inj (a b : list string) : map JStr a = map JStr b -> a = b.
Proof.
  revert b. induction a as [|x a IH]; intros [|y b]; simpl; intros H; try discriminate H;
    [reflexivity|].
  injection H as -> Ht. f_equal. exact (IH _ Ht).
Qed.

(** [Evidence.to_dict], which [main] writes to the [--output] file,
    loses nothing: two records with the same dict are the same record
    (in particular a missing error message, written as null, is told
    apart from every message). *)
Theorem evidence_to_dict_lossless (e1 e2 : Evidence) :
  evidence_to_dict e1 = evidence_to_dict e2 <-> e1 = e2.
Proof.
  split; [|intros ->; reflexivity].
  destruct e1 as [i1 n1 t1 r1 c1 d1 dt1 a1 m1], e2 as [i2 n2 t2 r2 c2 d2 dt2 a2 m2].
  unfold evidence_to_dict; simpl. intros H.
  injection H as Hi Hn Ht Hr Hc Hd Hdt Ha Hm.
  apply map_JStr_inj in Hc. subst.
  destruct m1, m2; try discriminate Hm; [injection Hm as ->|]; reflexivity.
Qed.

(* ------------------------------------------------------------------ *)

(** [main] after loading the configuration: [--dry-run] or [DRY_RUN]
    each turn dry-run on, and then the evidence goes to a fresh mock
    client that [push_to_drata] leaves untouched, whatever the live
    client would do; [--verbose] only takes effect together with
    [--dry-run] (without it the configured [VERBOSE] alone decides);
    the Kong and Drata settings are never changed by the flags. *)
Theorem main_flags (args_dry_run args_verbose : bool) (config : Config) :
  dry_run (main_config args_dry_run args_verbose config) = args_dry_run || dry_run config
  /\ verbose (main_config args_dry_run args_verbose config)
     = (args_dry_run && args_verbose) || verbose config
  /\ kong (main_config args_dry_run args_verbose config) = kong config
  /\ drata (main_config args_dry_run args_verbose config) = drata config
  /\ (args_dry_run || dry_run config = true ->
      forall (live : DrataSink) (results : list Evidence),
        let c := main_config args_dry_run args_verbose config in
        exists lines,
          push_to_drata results (make_sink (dry_run c) (verbose c) live) (dry_run c)
            = POk (DrataMock (verbose c) [], lines)
          /\ length lines = length results).
Proof.
  assert (Hpush : forall v results, exists lines,
            push_to_drata results (DrataMock v []) true = POk (DrataMock v [], lines)
            /\ length lines = length results).
  { intros v results. induction results as [|ev rest [lines [Hp Hl]]]; simpl.
    - exists []. split; reflexivity.
    - rewrite Hp. simpl. eexists. split; [reflexivity|]. simpl. f_equal. exact Hl. }
  destruct args_dry_run; simpl.
  - repeat split. intros _ live results. apply Hpush.
  - repeat split. intros Hd live results. cbv zeta. rewrite Hd. apply Hpush.
Qed.

(* ------------------------------------------------------------------ *)

(** The [coverage_percent] of the consumer-coverage check: 0 when there
    are no consumers, otherwise covered/total * 100, which lies between
    0 and 100 and is 100 whenever the check PASSes. *)
Theorem coverage_percent_bounds (consumers : list KongConsumer) (plugins : list KongPlugin)
  (r : TestResult) (d : json) (a : list EvidenceArtifact)
  (H : CF003_execute_on consumers plugins = POk (r, d, a)) :
  (consumers = [] -> json_field d "coverage_percent" = Some (JInt 0))
  /\ (consumers <> [] ->
      exists q, json_field d "coverage_percent" = Some (JNum q)
        /\ 0 <= q /\ q <= 100 /\ (r = PASS -> q == 100)).
Proof.
  unfold CF003_execute_on in H.
  apply pybind_ok in H. destruct H as [wl [_ H]].
  apply pybind_ok in H. destruct H as [entries [He H]].
  injection H as Hr <- _.
  pose proof (py_mapM_length _ _ _ He) as Hl.
  pose proof (length_filter_split (fun e => snd (fst e)) entries) as Hs.
  set (cov := length (filter (fun e => snd (fst e)) entries)) in *.
  set (miss := length (filter (fun e => negb (snd (fst e))) entries)) in *.
  split.
  - intros ->. reflexivity.
  - intros Hne. assert (Hpos : (0 < length consumers)%nat)
      by (destruct consumers; [contradiction Hne; reflexivity | simpl; lia]).
    destruct (Nat.ltb_spec 0 (length consumers)) as [_|Hn]; [|lia].
    eexists. split; [reflexivity|].
    assert (Ht : inject_Z 0 < inject_Z (Z.of_nat (length consumers))).
    { rewrite <- Zlt_Qlt. lia. }
    assert (Hc : inject_Z 0 <= inject_Z (Z.of_nat cov)) by (rewrite <- Zle_Qle; lia).
    assert (Hct : inject_Z (Z.of_nat cov) <= inject_Z (Z.of_nat (length consumers)))
      by (rewrite <- Zle_Qle; lia).
    split; [|split].
    + apply Qmult_le_0_compat; [|discriminate].
      apply Qle_shift_div_l; [exact Ht|]. rewrite Qmult_0_l. exact Hc.
    + rewrite <- (Qmult_1_l 100) at 2. apply Qmult_le_compat_r; [|discriminate].
      apply Qle_shift_div_r; [exact Ht|]. rewrite Qmult_1_l. exact Hct.
    + intros Hp. rewrite <- Hr in Hp.
      destruct (Nat.eqb_spec (length (map snd (filter (fun e => negb (snd (fst e))) entries))) 0)
        as [H0|H0]; [|discriminate Hp].
      rewrite length_map in H0. fold miss in H0.
      assert (Heq : cov = length consumers) by lia. rewrite Heq.
      unfold Qdiv. rewrite Qmult_inv_r; [apply Qmult_1_l|].
      intros Hz. rewrite Hz in Ht. discriminate Ht.
Qed.

Definition consumer_gold2 : KongConsumer :=
  mkConsumer (JStr "c-1") (JStr "gold") (JStr "tier_pro") (JInt 0).

Definition plugin_for_gold2 : KongPlugin :=
  mkPlugin (JStr "p-2") (JStr "rate-limiting") (JBool true) (JObj []) (JStr "c-1") JNull JNull.

Lemma coverage_percent_bounds_witness :
  exists r d a q, CF003_execute_on [consumer_gold2; consumer_bronze] [plugin_for_gold2] = POk (r, d, a)
    /\ json_field d "coverage_percent" = Some (JNum q) /\ 0 <= q <= 100.
Proof.
  destruct (CF003_execute_on [consumer_gold2; consumer_bronze] [plugin_for_gold2])
    as [[[r d] a]|e] eqn:H; [|vm_compute in H; discriminate H].
  destruct (proj2 (coverage_percent_bounds _ _ _ _ _ H) ltac:(discriminate))
    as [q [Hq [H0 [H1 _]]]].
  exists r, d, a, q. split; [reflexivity|]. split; [exact Hq | split; assumption].
Defined.
